(** * reviewbot: the diff-to-lint-to-annotation pipeline

    A shallow embedding of the pull-request handler of the bot, in the
    revision that enforces the linter timeout and writes the step summary,
    together with the properties its specification states about it.  The
    first revision of the handler is embedded next to it, as far as it
    differs.

    JavaScript strings are modelled as [string]; every literal the code
    searches for or compares with is ASCII, so byte-wise comparison agrees
    with the comparison of UTF-16 code units.  Counts and positions
    ([number] in the source) are integers, modelled as [Z]. *)

From Stdlib Require Import String Ascii List ZArith Lia Bool DecimalString.
Import ListNotations.
Local Open Scope list_scope.
Local Open Scope string_scope.

Set Implicit Arguments.

(** ** JavaScript string primitives used by the handler *)

Module Js.

(** [String.prototype.startsWith]. *)
Fixpoint startsWith (needle s : string) : bool :=
  match needle, s with
  | EmptyString, _ => true
  | String _ _, EmptyString => false
  | String a needle', String b s' => Ascii.eqb a b && startsWith needle' s'
  end.

(** [String.prototype.includes]: is [needle] a substring of [s]? *)
Fixpoint includes (needle s : string) : bool :=
  startsWith needle s ||
  match s with
  | EmptyString => false
  | String _ s' => includes needle s'
  end.

(** [String.prototype.split] with a one-character separator.  The result
    is never empty: a string without the separator yields itself. *)
Fixpoint split (sep : ascii) (s : string) : list string :=
  match s with
  | EmptyString => [EmptyString]
  | String c s' =>
      if Ascii.eqb c sep then EmptyString :: split sep s'
      else match split sep s' with
           | [] => [String c EmptyString]
           | seg :: segs => String c seg :: segs
           end
  end.

(** A destructured array element inside a template literal:
    [undefined] prints as the word. *)
Definition interpolate (v : option string) : string :=
  match v with
  | Some s => s
  | None => "undefined"
  end.

(** Truthiness of a string: the empty string is falsy. *)
Definition truthy (s : string) : bool :=
  match s with
  | EmptyString => false
  | String _ _ => true
  end.

(** [a ?? b]: the right operand replaces only [null] and [undefined]. *)
Definition nullish (a : option string) (b : string) : string :=
  match a with
  | Some s => s
  | None => b
  end.

(** [Number.prototype.toString] on an integer. *)
Definition numberToString (n : Z) : string :=
  NilZero.string_of_int (Z.to_int n).

End Js.

(** ** Data model *)

Module Message.
Record t := mk {
  ruleId : string;
  severity : Z;
  message : string;
  line : Z;
  column : Z;
  nodeType : string;
  messageId : string;
  endLine : Z;
  endColumn : Z
}.
End Message.
Abbreviation Message := Message.t.
Import Message.

Record File := mkFile {
  filePath : string;
  messages : list Message
}.

(** ** Pure helpers of the handler *)

Definition ruleUrl (ruleName : string) : option string :=
  let splittedRuleName := Js.split "/" ruleName in
  if Nat.eqb (length splittedRuleName) 1 then
    Some ("https://eslint.org/docs/rules/" ++ ruleName)
  else
    let domain := nth_error splittedRuleName 0 in
    let ruleId := nth_error splittedRuleName 1 in
    match domain with
    | Some d =>
        if d =? "jest" then
          Some ("https://github.com/jest-community/eslint-plugin-jest/blob/main/docs/rules/"
                  ++ Js.interpolate ruleId ++ ".md")
        else if d =? "testing-library" then
          Some ("https://github.com/testing-library/eslint-plugin-testing-library/blob/main/docs/rules/"
                  ++ Js.interpolate ruleId ++ ".md")
        else if d =? "@typescript-eslint" then
          Some ("https://github.com/typescript-eslint/typescript-eslint/blob/main/packages/eslint-plugin/docs/rules/"
                  ++ Js.interpolate ruleId ++ ".md")
        else None
    | None => None
    end.

Definition formatRuleMessage (ruleName : string) : string :=
  match ruleUrl ruleName with
  | Some url =>
      if Js.truthy url then "See " ++ url ++ " for details."
      else "No further rule information available."
  | None => "No further rule information available."
  end.

Definition shouldBeSkipped (body : option string) : bool :=
  match body with
  | Some b =>
      if Js.truthy b then
        Js.includes "[review skip]" b || Js.includes "[no review]" b
          || Js.includes "[skip review]" b
      else false
  | None => false
  end.

Definition worriedEmoji (numberOfErrors : Z) : string :=
  if (100 <? numberOfErrors)%Z then ":sob:"
  else if (10 <? numberOfErrors)%Z then ":disappointed_relieved:"
  else ":worried:".

(** execution timeout in milliseconds *)
Definition LINTER_TIMEOUT : Z := 10 * 60 * 1000.

(** ** Effects

    The handler talks to the Actions toolkit, the GitHub API, a child
    process and the file system.  What it does to them is recorded as a
    trace of events; what they answer is read from a [World]. *)

(** A value thrown, or a promise rejected with it. *)
Inductive Thrown :=
| JsError (msg : string)
| JsUndefined.

Definition Result (A : Type) : Type := (Thrown + A)%type.

(** The objects built from the findings, one per finding. *)
Module Annotation.
Record t := mk {
  message : string;
  title : string;
  file : string;
  startLine : Z;
  startColumn : Z;
  endLine : Z;
  endColumn : Z
}.
End Annotation.

(** The second argument of [core.warning]: an annotation without its
    [message]. *)
Module Properties.
Record t := mk {
  title : string;
  file : string;
  startLine : Z;
  startColumn : Z;
  endLine : Z;
  endColumn : Z
}.
End Properties.

(** The rest pattern [{ message, ...rest }]. *)
Definition rest (a : Annotation.t) : Properties.t :=
  {| Properties.title := Annotation.title a;
     Properties.file := Annotation.file a;
     Properties.startLine := Annotation.startLine a;
     Properties.startColumn := Annotation.startColumn a;
     Properties.endLine := Annotation.endLine a;
     Properties.endColumn := Annotation.endColumn a |}.

Inductive Event :=
| Debug (msg : string)
| Spawn (command : string) (timeout : Z)
| Warning (msg : string) (properties : Properties.t)
| SetFailed (msg : string)
| WriteFile (filename data : string).

(** Traced computations that may throw: the events emitted so far and
    either the thrown value or the result. *)
Definition Action (A : Type) : Type := (list Event * Result A)%type.

Definition ret {A} (a : A) : Action A := ([], inr a).

Definition throw {A} (t : Thrown) : Action A := ([], inl t).

Definition emit (e : Event) : Action unit := ([e], inr tt).

Definition lift {A} (r : Result A) : Action A := ([], r).

Definition bind {A B} (m : Action A) (k : A -> Action B) : Action B :=
  match m with
  | (t, inl e) => (t, inl e)
  | (t, inr a) => let (t', r) := k a in ((t ++ t')%list, r)
  end.

Notation "x <- m ;; k" := (bind m (fun x => k))
  (at level 61, m at next level, right associativity).
Notation "m ;; k" := (bind m (fun _ => k))
  (at level 61, right associativity).

(** [Array.prototype.forEach] with an effectful callback. *)
Fixpoint forEach {A} (xs : list A) (f : A -> Action unit) : Action unit :=
  match xs with
  | [] => ret tt
  | x :: xs' => f x ;; forEach xs' f
  end.

Definition trace {A} (m : Action A) : list Event := fst m.
Definition outcome {A} (m : Action A) : Result A := snd m.

(** ** The world a run executes in *)

(** What [spawnSync] returns: the exit status ([null] when the child was
    killed, as at a timeout, or could not be started), what it printed and
    the error object, if any. *)
Record SpawnResult := mkSpawnResult {
  status : option Z;
  stdout : string;
  error : option string
}.

(** The fields of the pull request record that the handler reads. *)
Record PullData := mkPullData {
  body : option string;
  baseSha : string;
  headSha : string
}.

Record World := mkWorld {
  (** [core.getInput(name, { required })] *)
  getInput : string -> bool -> Result string;
  (** [context.pullRequest()]: owner, repo and pull number *)
  pullRequest : string * string * Z;
  (** [context.octokit.pulls.get] *)
  pulls_get : string -> string -> Z -> Result PullData;
  (** [spawnSync(command, { timeout })] *)
  spawnSync : string -> Z -> SpawnResult;
  (** [process.env.GITHUB_STEP_SUMMARY] *)
  GITHUB_STEP_SUMMARY : option string;
  (** [fs.writeFileSync] *)
  writeFileSync : string -> string -> Result unit;
  (** [process.cwd()] *)
  cwd : string
}.

(** [reject(result.error)]: the promise is rejected with the error object
    of the spawn result, which is [undefined] when the child ran and exited
    on its own. *)
Definition rejection (e : option string) : Thrown :=
  match e with
  | Some msg => JsError msg
  | None => JsUndefined
  end.

(** ** The handler *)

Section Handler.

(** Library functions of the runtime, the same in every run:
    [JSON.parse] (which throws on text that is not JSON), the
    pretty-printing [JSON.stringify(_, null, 2)] and [path.relative]. *)
Variable JSON_parse : string -> Result (list File).
Variable JSON_stringify : list File -> string.
Variable path_relative : string -> string -> string.

Variable w : World.

(** [spawnSync] is given the command line and the timeout, nothing else;
    what the runtime makes of the command line is the world's answer. *)
Definition exec (command : string) : Action string :=
  emit (Spawn command LINTER_TIMEOUT) ;;
  let result := spawnSync w command LINTER_TIMEOUT in
  match status result with
  | Some 0%Z => ret (stdout result)
  | _ => throw (rejection (error result))
  end.

Definition lintCommand (baseSha headSha prefix workingDirectory : string)
  : string :=
  "cd ./" ++ workingDirectory ++ "/" ++ prefix
    ++ "; git diff --name-only --diff-filter=ACMR " ++ baseSha ++ "..."
    ++ headSha ++ " | grep -E '^" ++ prefix ++ "/(.*).[jt]s(x)?$'|sed 's,^"
    ++ prefix ++ "/,,'|xargs yarn -s eslint -f json".

Definition lintDiff (baseSha headSha prefix workingDirectory : string)
  : Action (list File) :=
  let cmd := lintCommand baseSha headSha prefix workingDirectory in
  emit (Debug ("Executing: " ++ cmd)) ;;
  result <- exec cmd ;;
  emit (Debug ("Got result: " ++ result)) ;;
  lift (JSON_parse result).

Definition normalizeFilename (filename workingDirectory : string) : string :=
  path_relative (cwd w ++ "/" ++ workingDirectory) filename.

Definition writeSummary (summary : string) : Action unit :=
  match GITHUB_STEP_SUMMARY w with
  | None => throw (JsError "No step summary filename passed in environment!")
  | Some filename =>
      emit (WriteFile filename summary) ;;
      lift (writeFileSync w filename summary)
  end.

(** [results.filter((result) => result.messages.length > 0)] *)
Definition filesWithErrors (results : list File) : list File :=
  filter (fun result => (0 <? Z.of_nat (length (messages result)))%Z) results.

(** [filesWithErrors.map(...).reduce((prev, cur) => prev + cur, 0)] *)
Definition totalErrors (results : list File) : Z :=
  fold_left (fun prev cur => (prev + cur)%Z)
    (map (fun file => Z.of_nat (length (messages file)))
       (filesWithErrors results))
    0%Z.

Definition annotations (workingDirectory : string) (results : list File)
  : list Annotation.t :=
  flat_map
    (fun file =>
       map (fun message =>
              {| Annotation.message := formatRuleMessage (ruleId message);
                 Annotation.title := Message.message message;
                 Annotation.file :=
                   normalizeFilename (filePath file) workingDirectory;
                 Annotation.startLine := line message;
                 Annotation.startColumn := column message;
                 Annotation.endLine := endLine message;
                 Annotation.endColumn := endColumn message |})
           (messages file))
    (filesWithErrors results).

(** The part of the handler that follows [lintDiff]. *)
Definition report (workingDirectory : string) (results : list File)
  : Action unit :=
  emit (Debug ("Files with errors: "
                 ++ JSON_stringify (filesWithErrors results))) ;;
  let totalErrors := totalErrors results in
  if (0 <? totalErrors)%Z then
    forEach (annotations workingDirectory results)
      (fun a => emit (Warning (Annotation.message a) (rest a))) ;;
    emit (SetFailed ("Found " ++ Js.numberToString totalErrors
                       ++ " linter hints in the changed code.")) ;;
    writeSummary ("## Found " ++ Js.numberToString totalErrors
                    ++ " linter hints in the changed code. "
                    ++ worriedEmoji totalErrors)
  else
    writeSummary "## Your code looks awesome! :rocket:".

Definition handler : Action unit :=
  prefix <- lift (getInput w "prefix" true) ;;
  input <- lift (getInput w "workingDirectory" false) ;;
  let workingDirectory := Js.nullish (Some input) "." in
  let '(owner, repo, pull_number) := pullRequest w in
  emit (Debug ("Started for PR " ++ Js.numberToString pull_number
                 ++ " in repo " ++ repo ++ " from " ++ owner ++ ".")) ;;
  data <- lift (pulls_get w owner repo pull_number) ;;
  emit (Debug ("Base SHA: " ++ baseSha data ++ ", head SHA: "
                 ++ headSha data)) ;;
  if shouldBeSkipped (body data) then
    emit (Debug "Skipping PR.")
  else
    results <- lintDiff (baseSha data) (headSha data) prefix
                 workingDirectory ;;
    report workingDirectory results.

End Handler.

(** ** The first revision of the handler ([src/app.ts])

    It ran the same pipeline through [child_process.exec], without a
    timeout, kept whatever the child had printed, and wrote no summary; the
    title of an annotation carried a link to the rule. *)

Module Earlier.

Section Handler.

Variable JSON_parse : string -> Result (list File).
Variable path_relative : string -> string -> string.
Variable w : World.

(** [child_process.exec(command, callback)]: what the callback receives
    as [stdout]. *)
Variable childExec : string -> string.

(** The callback resolves with [stdout] and ignores [error]; no [timeout]
    is given, and the default of [exec] is 0, for none. *)
Definition exec (command : string) : Action string :=
  emit (Spawn command 0) ;;
  ret (childExec command).

Definition lintCommand (baseSha headSha prefix : string) : string :=
  "cd ./" ++ prefix
    ++ "; git diff --name-only --diff-filter=ACMR " ++ baseSha ++ ".."
    ++ headSha ++ " | grep -E '^" ++ prefix ++ "/(.*).[jt]s(x)?$'|sed 's,^"
    ++ prefix ++ "/,,'|xargs yarn -s eslint -f json".

Definition lintDiff (baseSha headSha prefix : string) : Action (list File) :=
  let cmd := lintCommand baseSha headSha prefix in
  result <- exec cmd ;;
  lift (JSON_parse result).

Definition normalizeFilename (filename : string) : string :=
  path_relative (cwd w) filename.

Definition makeRuleNameWithUrl (ruleName url : string) : string :=
  "[" ++ ruleName ++ "](" ++ url ++ ")".

Definition formatRuleName (ruleName : string) : string :=
  let splittedRuleName := Js.split "/" ruleName in
  if Nat.eqb (length splittedRuleName) 1 then
    makeRuleNameWithUrl ruleName ("https://eslint.org/docs/rules/" ++ ruleName)
  else
    let domain := nth_error splittedRuleName 0 in
    let ruleId := nth_error splittedRuleName 1 in
    match domain with
    | Some d =>
        if d =? "jest" then
          makeRuleNameWithUrl (Js.interpolate ruleId)
            ("https://github.com/jest-community/eslint-plugin-jest/blob/main/docs/rules/"
               ++ Js.interpolate ruleId ++ ".md")
        else if d =? "testing-library" then
          makeRuleNameWithUrl (Js.interpolate ruleId)
            ("https://github.com/testing-library/eslint-plugin-testing-library/blob/main/docs/rules/"
               ++ Js.interpolate ruleId ++ ".md")
        else if d =? "@typescript-eslint" then
          makeRuleNameWithUrl (Js.interpolate ruleId)
            ("https://github.com/typescript-eslint/typescript-eslint/blob/main/packages/eslint-plugin/docs/rules/"
               ++ Js.interpolate ruleId ++ ".md")
        else ruleName
    | None => ruleName
    end.

Definition annotations (results : list File) : list Annotation.t :=
  flat_map
    (fun file =>
       map (fun message =>
              {| Annotation.message := Message.message message;
                 Annotation.file := normalizeFilename (filePath file);
                 Annotation.title :=
                   formatRuleName (ruleId message) ++ ": "
                     ++ Message.message message;
                 Annotation.startLine := line message;
                 Annotation.startColumn := column message;
                 Annotation.endLine := endLine message;
                 Annotation.endColumn := endColumn message |})
           (messages file))
    (filesWithErrors results).

Definition handler : Action unit :=
  prefix <- lift (getInput w "prefix" true) ;;
  let '(owner, repo, pull_number) := pullRequest w in
  data <- lift (pulls_get w owner repo pull_number) ;;
  if shouldBeSkipped (body data) then ret tt
  else
    results <- lintDiff (baseSha data) (headSha data) prefix ;;
    let totalErrors := totalErrors results in
    if (0 <? totalErrors)%Z then
      forEach (annotations results)
        (fun a => emit (Warning (Annotation.message a) (rest a))) ;;
      emit (SetFailed ("Found " ++ Js.numberToString totalErrors
                         ++ " linter hints in the changed code."))
    else ret tt.

End Handler.

End Earlier.

(** ** The second revision of the handler

    Between the first revision and the one with the timeout: [exec],
    [lintDiff] and [normalizeFilename] are, letter for letter, those of the
    first revision; [ruleUrl], [formatRuleMessage] and the texts of an
    annotation are already those of the latest. *)

Module Middle.

Section Handler.

Variable JSON_parse : string -> Result (list File).
Variable path_relative : string -> string -> string.
Variable w : World.
Variable childExec : string -> string.

Definition annotations (results : list File) : list Annotation.t :=
  flat_map
    (fun file =>
       map (fun message =>
              {| Annotation.message := formatRuleMessage (ruleId message);
                 Annotation.title := Message.message message;
                 Annotation.file :=
                   Earlier.normalizeFilename path_relative w (filePath file);
                 Annotation.startLine := line message;
                 Annotation.startColumn := column message;
                 Annotation.endLine := endLine message;
                 Annotation.endColumn := endColumn message |})
           (messages file))
    (filesWithErrors results).

Definition handler : Action unit :=
  prefix <- lift (getInput w "prefix" true) ;;
  let '(owner, repo, pull_number) := pullRequest w in
  data <- lift (pulls_get w owner repo pull_number) ;;
  if shouldBeSkipped (body data) then ret tt
  else
    results <- Earlier.lintDiff JSON_parse childExec (baseSha data)
                 (headSha data) prefix ;;
    let totalErrors := totalErrors results in
    if (0 <? totalErrors)%Z then
      forEach (annotations results)
        (fun a => emit (Warning (Annotation.message a) (rest a))) ;;
      emit (SetFailed ("Found " ++ Js.numberToString totalErrors
                         ++ " linter hints in the changed code."))
    else ret tt.

End Handler.

End Middle.

(** ** The lint command, read as a shell pipeline

    The command line is written for a shell ([child_process.exec] of the
    first revision runs it in one).  Its middle stages select the files that
    reach the linter:
    [git diff --name-only --diff-filter=ACMR base...head] prints one path per
    line, [grep -E] keeps the lines that its pattern matches from end to end
    and [sed 's,^prefix/,,'] removes the leading directory.  The
    prefix is taken to be free of regular-expression operators (a plain
    directory name), so that it stands for itself in both patterns. *)

Module Shell.

(** POSIX extended regular expressions, as far as the pattern uses them. *)
Inductive regex :=
| Eps
| Any
| Chr (c : ascii)
| Bracket (cs : list ascii)
| Seq (r1 r2 : regex)
| Alt (r1 r2 : regex)
| Star (r : regex)
| Fail.

(** [r?] *)
Definition Opt (r : regex) : regex := Alt r Eps.

Fixpoint nullable (r : regex) : bool :=
  match r with
  | Eps => true
  | Any => false
  | Chr _ => false
  | Bracket _ => false
  | Seq r1 r2 => nullable r1 && nullable r2
  | Alt r1 r2 => nullable r1 || nullable r2
  | Star _ => true
  | Fail => false
  end.

(** What remains of [r] to be matched once the character [a] is read. *)
Fixpoint deriv (a : ascii) (r : regex) : regex :=
  match r with
  | Eps => Fail
  | Any => Eps
  | Chr c => if Ascii.eqb a c then Eps else Fail
  | Bracket cs => if existsb (Ascii.eqb a) cs then Eps else Fail
  | Seq r1 r2 =>
      if nullable r1 then Alt (Seq (deriv a r1) r2) (deriv a r2)
      else Seq (deriv a r1) r2
  | Alt r1 r2 => Alt (deriv a r1) (deriv a r2)
  | Star r1 => Seq (deriv a r1) (Star r1)
  | Fail => Fail
  end.

(** Does [r] match the whole of [s]?  (The pattern is anchored at both
    ends by [^] and [$].) *)
Fixpoint matches (r : regex) (s : string) : bool :=
  match s with
  | EmptyString => nullable r
  | String a s' => matches (deriv a r) s'
  end.

(** The strings a pattern stands for. *)
Inductive lang : regex -> string -> Prop :=
| lang_eps : lang Eps EmptyString
| lang_any (c : ascii) : lang Any (String c EmptyString)
| lang_chr (c : ascii) : lang (Chr c) (String c EmptyString)
| lang_bracket (c : ascii) (cs : list ascii) :
    In c cs -> lang (Bracket cs) (String c EmptyString)
| lang_seq (r1 r2 : regex) (s1 s2 : string) :
    lang r1 s1 -> lang r2 s2 -> lang (Seq r1 r2) (s1 ++ s2)
| lang_alt_l (r1 r2 : regex) (s : string) :
    lang r1 s -> lang (Alt r1 r2) s
| lang_alt_r (r1 r2 : regex) (s : string) :
    lang r2 s -> lang (Alt r1 r2) s
| lang_star_nil (r : regex) : lang (Star r) EmptyString
| lang_star_cons (r : regex) (s1 s2 : string) :
    lang r s1 -> lang (Star r) s2 -> lang (Star r) (s1 ++ s2).

(** A run of ordinary characters. *)
Fixpoint literal (s : string) : regex :=
  match s with
  | EmptyString => Eps
  | String c s' => Seq (Chr c) (literal s')
  end.

(** The pattern given to [grep -E]: [^], the prefix, [/], a group of any
    characters repeated, [.], [[jt]], [s], an optional group [x], [$]. *)
Definition grepPattern (prefix : string) : regex :=
  Seq (literal prefix)
    (Seq (Chr "/")
       (Seq (Star Any)
          (Seq Any
             (Seq (Bracket ["j"; "t"]%char)
                (Seq (Chr "s") (Opt (Chr "x"))))))).

Definition grep (prefix : string) (lines : list string) : list string :=
  filter (matches (grepPattern prefix)) lines.

Fixpoint drop (n : nat) (s : string) : string :=
  match n, s with
  | O, _ => s
  | S _, EmptyString => EmptyString
  | S n', String _ s' => drop n' s'
  end.

(** [s,^prefix/,,]: delete [prefix/] at the start of the line. *)
Definition sed (prefix : string) (line : string) : string :=
  if Js.startsWith (prefix ++ "/") line
  then drop (String.length prefix + 1) line
  else line.

(** The lines that reach [xargs], from the lines that [git diff] printed.
    [xargs] hands each of them to the linter as one argument as long as it
    holds no white space, quote or backslash (see [arguments]). *)
Definition lintedFiles (prefix : string) (changed : list string)
  : list string :=
  map (sed prefix) (grep prefix changed).

(** The child process as the parent sees it: the exit status of the
    pipeline, what it printed, and how long it ran, in milliseconds. *)
Record Child := mkChild {
  exitStatus : Z;
  output : string;
  duration : Z
}.

(** [spawnSync] with a [timeout]: a child still running when the time is
    up is killed, and the result then carries no exit status and an
    [ETIMEDOUT] error (what it had printed is of no interest to [exec]
    then). *)
Definition spawned (child : Child) (timeout : Z) : SpawnResult :=
  if (timeout <? duration child)%Z then
    {| status := None; stdout := EmptyString;
       error := Some "spawnSync ETIMEDOUT" |}
  else
    {| status := Some (exitStatus child); stdout := output child;
       error := None |}.

(** *** [xargs]

    Without options [xargs] cuts its input into arguments at white space;
    a quote protects what follows up to the same quote, a backslash the
    next character.  An unmatched quote is an error. *)

Definition isSpace (c : ascii) : bool :=
  Nat.eqb (nat_of_ascii c) 32
  || (Nat.leb 9 (nat_of_ascii c) && Nat.leb (nat_of_ascii c) 13).

Definition isQuote (c : ascii) : bool :=
  Ascii.eqb c "'" || Ascii.eqb c "034".

Definition isBackslash (c : ascii) : bool := Ascii.eqb c "092".

(** The argument being read, if one has been begun. *)
Definition content (cur : option string) : string :=
  match cur with
  | Some word => word
  | None => EmptyString
  end.

Definition push (cur : option string) (c : ascii) : option string :=
  Some (content cur ++ String c EmptyString).

Definition close (cur : option string) (rest : list string) : list string :=
  match cur with
  | Some word => word :: rest
  | None => rest
  end.

(** The arguments in [s]; [quote] is the open quote, [cur] the argument
    being read. *)
Fixpoint tokens (s : string) (quote : option ascii) (cur : option string)
  : option (list string) :=
  match s with
  | EmptyString =>
      match quote with
      | Some _ => None
      | None => Some (close cur [])
      end
  | String c s' =>
      match quote with
      | Some q =>
          if Ascii.eqb c q then tokens s' None cur
          else if Ascii.eqb c "010" then None
          else tokens s' quote (push cur c)
      | None =>
          if isSpace c then
            match tokens s' None None with
            | Some rest => Some (close cur rest)
            | None => None
            end
          else if isQuote c then tokens s' (Some c) (Some (content cur))
          else if isBackslash c then
            match s' with
            | String d s'' => tokens s'' None (push cur d)
            | EmptyString => Some (close cur [])
            end
          else tokens s' None (push cur c)
      end
  end.

(** The input of [xargs]: the lines, each ended by a line feed. *)
Fixpoint unlines (lines : list string) : string :=
  match lines with
  | [] => EmptyString
  | line :: lines' => line ++ String "010" (unlines lines')
  end.

(** The arguments that [xargs] puts after [yarn -s eslint -f json]. *)
Definition arguments (prefix : string) (changed : list string)
  : option (list string) :=
  tokens (unlines (lintedFiles prefix changed)) None None.

(** A line that [xargs] takes as it is. *)
Fixpoint unquoted (line : string) : bool :=
  match line with
  | EmptyString => true
  | String c line' =>
      negb (isSpace c || isQuote c || isBackslash c) && unquoted line'
  end.

(** A prefix that stands for itself in the patterns of [grep] and [sed]
    and inside the quotes of the command line: letters, digits, [-], [_]
    and [/]. *)
Fixpoint plain (prefix : string) : bool :=
  match prefix with
  | EmptyString => true
  | String c prefix' =>
      let n := nat_of_ascii c in
      ((Nat.leb 48 n && Nat.leb n 57) || (Nat.leb 65 n && Nat.leb n 90)
       || (Nat.leb 97 n && Nat.leb n 122) || Ascii.eqb c "-"
       || Ascii.eqb c "_" || Ascii.eqb c "/")
      && plain prefix'
  end.

End Shell.

(** ** Starting a program

    [spawnSync(command, options)], called without arguments for the program
    and without the [shell] option, takes [command] for the name of the
    program to run.  [programs] tells which names are programs and how
    these behave; for any other name the result has no status and carries
    the error [ENOENT]. *)

Module Node.

Definition spawnSync (programs : string -> option Shell.Child)
  (command : string) (timeout : Z) : SpawnResult :=
  match programs command with
  | Some child => Shell.spawned child timeout
  | None =>
      {| status := None; stdout := EmptyString;
         error := Some ("spawnSync " ++ command ++ " ENOENT") |}
  end.

End Node.

(** ** A JSON reader and printer

    An executable instance of the runtime's [JSON.parse] and
    [JSON.stringify] for reports as the linter prints them (integers for
    numbers, the short escapes in strings).  The properties of the handler
    hold for any parser; this one lets them be run on concrete reports. *)

Module Json.

#[local] Set Warnings "-register-all".

Inductive value :=
| Null
| Bool (b : bool)
| Num (n : Z)
| Str (s : string)
| Arr (items : list value)
| Obj (members : list (string * value)).

Definition dquote : ascii := "034"%char.
Definition backslash : ascii := "092"%char.
Definition newline : ascii := "010"%char.

Definition isSpace (c : ascii) : bool :=
  Ascii.eqb c " " || Ascii.eqb c "009" || Ascii.eqb c "010" || Ascii.eqb c "013".

Definition isDigit (c : ascii) : bool :=
  (48 <=? nat_of_ascii c)%nat && (nat_of_ascii c <=? 57)%nat.

Fixpoint skipSpace (s : string) : string :=
  match s with
  | String c s' => if isSpace c then skipSpace s' else s
  | EmptyString => s
  end.

Fixpoint readDigits (s : string) (acc : Z) : Z * string :=
  match s with
  | String c s' =>
      if isDigit c
      then readDigits s' (10 * acc + Z.of_nat (nat_of_ascii c - 48))%Z
      else (acc, s)
  | EmptyString => (acc, s)
  end.

Definition readNumber (s : string) : option (Z * string) :=
  match s with
  | String "-" (String c _ as s') =>
      if isDigit c
      then let (n, r) := readDigits s' 0%Z in Some ((- n)%Z, r)
      else None
  | String c _ => if isDigit c then Some (readDigits s 0%Z) else None
  | EmptyString => None
  end.

Definition unescape (c : ascii) : option ascii :=
  if Ascii.eqb c dquote then Some dquote
  else if Ascii.eqb c backslash then Some backslash
  else if Ascii.eqb c "/" then Some "/"%char
  else if Ascii.eqb c "n" then Some newline
  else if Ascii.eqb c "t" then Some "009"%char
  else if Ascii.eqb c "r" then Some "013"%char
  else None.

(** The rest of a string literal, after its opening quote. *)
Fixpoint readString (s : string) : option (string * string) :=
  match s with
  | EmptyString => None
  | String c r =>
      if Ascii.eqb c dquote then Some (EmptyString, r)
      else if Ascii.eqb c backslash then
        match r with
        | String e r' =>
            match unescape e, readString r' with
            | Some ch, Some (str, r'') => Some (String ch str, r'')
            | _, _ => None
            end
        | EmptyString => None
        end
      else
        match readString r with
        | Some (str, r') => Some (String c str, r')
        | None => None
        end
  end.

Fixpoint readValue (fuel : nat) (s : string) : option (value * string) :=
  match fuel with
  | O => None
  | S fuel' =>
      match skipSpace s with
      | EmptyString => None
      | String c r =>
          if Ascii.eqb c "[" then
            match skipSpace r with
            | String "]" r' => Some (Arr [], r')
            | _ =>
                match readItems fuel' r with
                | Some (vs, r') => Some (Arr vs, r')
                | None => None
                end
            end
          else if Ascii.eqb c "{" then
            match skipSpace r with
            | String "}" r' => Some (Obj [], r')
            | _ =>
                match readMembers fuel' r with
                | Some (ms, r') => Some (Obj ms, r')
                | None => None
                end
            end
          else if Ascii.eqb c dquote then
            match readString r with
            | Some (str, r') => Some (Str str, r')
            | None => None
            end
          else if Js.startsWith "true" (String c r) then
            Some (Bool true, Shell.drop 4 (String c r))
          else if Js.startsWith "false" (String c r) then
            Some (Bool false, Shell.drop 5 (String c r))
          else if Js.startsWith "null" (String c r) then
            Some (Null, Shell.drop 4 (String c r))
          else
            match readNumber (String c r) with
            | Some (n, r') => Some (Num n, r')
            | None => None
            end
      end
  end
with readItems (fuel : nat) (s : string) : option (list value * string) :=
  match fuel with
  | O => None
  | S fuel' =>
      match readValue fuel' s with
      | Some (v, r) =>
          match skipSpace r with
          | String "," r' =>
              match readItems fuel' r' with
              | Some (vs, r'') => Some (v :: vs, r'')
              | None => None
              end
          | String "]" r' => Some ([v], r')
          | _ => None
          end
      | None => None
      end
  end
with readMembers (fuel : nat) (s : string)
  : option (list (string * value) * string) :=
  match fuel with
  | O => None
  | S fuel' =>
      match skipSpace s with
      | String c r =>
          if Ascii.eqb c dquote then
            match readString r with
            | Some (key, r1) =>
                match skipSpace r1 with
                | String ":" r2 =>
                    match readValue fuel' r2 with
                    | Some (v, r3) =>
                        match skipSpace r3 with
                        | String "," r4 =>
                            match readMembers fuel' r4 with
                            | Some (ms, r5) => Some ((key, v) :: ms, r5)
                            | None => None
                            end
                        | String "}" r4 => Some ([(key, v)], r4)
                        | _ => None
                        end
                    | None => None
                    end
                | _ => None
                end
            | None => None
            end
          else None
      | EmptyString => None
      end
  end.

Definition read (s : string) : option value :=
  match readValue (2 * String.length s + 2) s with
  | Some (v, r) =>
      match skipSpace r with
      | EmptyString => Some v
      | String _ _ => None
      end
  | None => None
  end.

(** The value of a member; of two members with one key the later counts. *)
Fixpoint member (key : string) (ms : list (string * value)) : option value :=
  match ms with
  | [] => None
  | (k, v) :: ms' =>
      match member key ms' with
      | Some v' => Some v'
      | None => if k =? key then Some v else None
      end
  end.

Definition str (key : string) (ms : list (string * value)) : option string :=
  match member key ms with
  | Some (Str s) => Some s
  | _ => None
  end.

Definition num (key : string) (ms : list (string * value)) : option Z :=
  match member key ms with
  | Some (Num n) => Some n
  | _ => None
  end.

Fixpoint sequence {A} (xs : list (option A)) : option (list A) :=
  match xs with
  | [] => Some []
  | Some x :: xs' =>
      match sequence xs' with
      | Some l => Some (x :: l)
      | None => None
      end
  | None :: _ => None
  end.

Definition asMessage (v : value) : option Message :=
  match v with
  | Obj ms =>
      match str "ruleId" ms, num "severity" ms, str "message" ms,
            num "line" ms, num "column" ms, str "nodeType" ms,
            str "messageId" ms, num "endLine" ms, num "endColumn" ms with
      | Some r, Some sv, Some m, Some l, Some c, Some nt, Some mi,
        Some el, Some ec =>
          Some (Message.mk r sv m l c nt mi el ec)
      | _, _, _, _, _, _, _, _, _ => None
      end
  | _ => None
  end.

Definition asFile (v : value) : option File :=
  match v with
  | Obj ms =>
      match str "filePath" ms, member "messages" ms with
      | Some p, Some (Arr items) =>
          match sequence (map asMessage items) with
          | Some l => Some (mkFile p l)
          | None => None
          end
      | _, _ => None
      end
  | _ => None
  end.

(** [JSON.parse(result) as Array<File>]: text that is not JSON is a
    [SyntaxError]; the cast takes the shape of the report for granted, and
    a value of another shape is refused here. *)
Definition parse (s : string) : Result (list File) :=
  match read s with
  | None => inl (JsError "SyntaxError: Unexpected token in JSON")
  | Some (Arr items) =>
      match sequence (map asFile items) with
      | Some files => inr files
      | None => inl (JsError "TypeError: not a lint report")
      end
  | Some _ => inl (JsError "TypeError: not a lint report")
  end.

Fixpoint escape (s : string) : string :=
  match s with
  | EmptyString => EmptyString
  | String c s' =>
      if Ascii.eqb c dquote || Ascii.eqb c backslash
      then String backslash (String c (escape s'))
      else if Ascii.eqb c newline
      then String backslash (String "n" (escape s'))
      else String c (escape s')
  end.

Definition quoted (s : string) : string :=
  String dquote (escape s ++ String dquote EmptyString).

Fixpoint spaces (n : nat) : string :=
  match n with
  | O => EmptyString
  | S n' => String " " (spaces n')
  end.

(** The line break and indentation at nesting depth [level]; nothing when
    no [gap] is asked for. *)
Definition break (gap level : nat) : string :=
  match gap with
  | O => EmptyString
  | S _ => String newline (spaces (gap * level))
  end.

Fixpoint join (sep : string) (xs : list string) : string :=
  match xs with
  | [] => EmptyString
  | [x] => x
  | x :: xs' => x ++ sep ++ join sep xs'
  end.

Fixpoint print (gap level : nat) (v : value) : string :=
  match v with
  | Null => "null"
  | Bool true => "true"
  | Bool false => "false"
  | Num n => Js.numberToString n
  | Str s => quoted s
  | Arr [] => "[]"
  | Arr items =>
      "[" ++ break gap (S level)
        ++ join ("," ++ break gap (S level))
             (map (print gap (S level)) items)
        ++ break gap level ++ "]"
  | Obj [] => "{}"
  | Obj ms =>
      "{" ++ break gap (S level)
        ++ join ("," ++ break gap (S level))
             (map (fun kv =>
                     quoted (fst kv) ++ ":"
                       ++ match gap with O => EmptyString | S _ => " " end
                       ++ print gap (S level) (snd kv))
                ms)
        ++ break gap level ++ "}"
  end.

Definition ofMessage (m : Message) : value :=
  Obj [("ruleId", Str (ruleId m)); ("severity", Num (severity m));
       ("message", Str (Message.message m)); ("line", Num (line m));
       ("column", Num (column m)); ("nodeType", Str (nodeType m));
       ("messageId", Str (messageId m)); ("endLine", Num (endLine m));
       ("endColumn", Num (endColumn m))].

Definition ofFile (f : File) : value :=
  Obj [("filePath", Str (filePath f));
       ("messages", Arr (map ofMessage (messages f)))].

(** [JSON.stringify(files, null, gap)]; the linter's own report is the
    case [gap = 0]. *)
Definition stringify (gap : nat) (files : list File) : string :=
  print gap 0 (Arr (map ofFile files)).

End Json.

(** ** A [path.relative] for absolute POSIX paths *)

Module Path.

(** The segments of a path with [.] and empty segments removed and [..]
    resolved; [stack] holds the segments read so far, innermost first. *)
Fixpoint resolve (segments stack : list string) : list string :=
  match segments with
  | [] => rev stack
  | seg :: segments' =>
      if (seg =? EmptyString) || (seg =? ".") then resolve segments' stack
      else if seg =? ".." then resolve segments' (tl stack)
      else resolve segments' (seg :: stack)
  end.

Fixpoint climb (from to : list string) : list string :=
  match from, to with
  | f :: from', t :: to' =>
      if f =? t then climb from' to'
      else (repeat ".." (length from) ++ to)%list
  | _, _ => (repeat ".." (length from) ++ to)%list
  end.

Definition relative (from to : string) : string :=
  Json.join "/"
    (climb (resolve (Js.split "/" from) []) (resolve (Js.split "/" to) [])).

End Path.

(** ** Observations on a trace *)

Definition isDebug (e : Event) : bool :=
  match e with Debug _ => true | _ => false end.

Definition isSpawn (e : Event) : bool :=
  match e with Spawn _ _ => true | _ => false end.

Definition isWarning (e : Event) : bool :=
  match e with Warning _ _ => true | _ => false end.

Definition isSetFailed (e : Event) : bool :=
  match e with SetFailed _ => true | _ => false end.

Definition isWriteFile (e : Event) : bool :=
  match e with WriteFile _ _ => true | _ => false end.

(** The annotations emitted, in order: the arguments of each
    [core.warning]. *)
Fixpoint warnings (t : list Event) : list (string * Properties.t) :=
  match t with
  | [] => []
  | Warning msg properties :: t' => (msg, properties) :: warnings t'
  | _ :: t' => warnings t'
  end.

(** The summaries written, in order. *)
Fixpoint summaries (t : list Event) : list string :=
  match t with
  | [] => []
  | WriteFile _ data :: t' => data :: summaries t'
  | _ :: t' => summaries t'
  end.

(** The four corners of a span. *)
Definition span (p : Properties.t) : Z * Z * Z * Z :=
  (Properties.startLine p, Properties.startColumn p,
   Properties.endLine p, Properties.endColumn p).

Definition findingSpan (m : Message) : Z * Z * Z * Z :=
  (line m, column m, endLine m, endColumn m).

(** The run gets as far as the linter: the inputs and the pull request are
    there, the body asks for no skip, and the child process answers [r]. *)
Definition lints (w : World) (prefix workingDirectory : string)
  (data : PullData) (r : SpawnResult) : Prop :=
  getInput w "prefix" true = inr prefix /\
  getInput w "workingDirectory" false = inr workingDirectory /\
  pulls_get w (fst (fst (pullRequest w))) (snd (fst (pullRequest w)))
    (snd (pullRequest w)) = inr data /\
  shouldBeSkipped (body data) = false /\
  spawnSync w
    (lintCommand (baseSha data) (headSha data) prefix workingDirectory)
    LINTER_TIMEOUT = r.

(** The pull request record arrives and its body asks for a skip. *)
Definition skips (w : World) (data : PullData) : Prop :=
  pulls_get w (fst (fst (pullRequest w))) (snd (fst (pullRequest w)))
    (snd (pullRequest w)) = inr data /\
  shouldBeSkipped (body data) = true.

(** ** The specification's wording, made executable

    Definitions that follow the sentences of the specification rather than
    the code, to be compared with the code. *)

Module Spec.

(** The text before the first [c]; the whole string when it has none. *)
Fixpoint before (c : ascii) (s : string) : string :=
  match s with
  | EmptyString => EmptyString
  | String a s' => if Ascii.eqb a c then EmptyString else String a (before c s')
  end.

(** The text after the first [c], when there is one. *)
Fixpoint after (c : ascii) (s : string) : option string :=
  match s with
  | EmptyString => None
  | String a s' => if Ascii.eqb a c then Some s' else after c s'
  end.

(** How often [c] occurs in [s]. *)
Fixpoint count (c : ascii) (s : string) : nat :=
  match s with
  | EmptyString => O
  | String a s' => if Ascii.eqb a c then S (count c s') else count c s'
  end.

(** The table of documentation bases, by namespace. *)
Definition docs (namespace id : string) : option string :=
  if namespace =? "jest" then
    Some ("https://github.com/jest-community/eslint-plugin-jest/blob/main/docs/rules/"
            ++ id ++ ".md")
  else if namespace =? "testing-library" then
    Some ("https://github.com/testing-library/eslint-plugin-testing-library/blob/main/docs/rules/"
            ++ id ++ ".md")
  else if namespace =? "@typescript-eslint" then
    Some ("https://github.com/typescript-eslint/typescript-eslint/blob/main/packages/eslint-plugin/docs/rules/"
            ++ id ++ ".md")
  else None.

(** The lookup with the namespace the text before the first [/] and the
    rule id all of the text after it. *)
Definition urlByRemainder (rule : string) : option string :=
  match after "/" rule with
  | None => Some ("https://eslint.org/docs/rules/" ++ rule)
  | Some remainder => docs (before "/" rule) remainder
  end.

(** The lookup with the rule id the text between the first [/] and the
    next one (or the end of the rule). *)
Definition urlBySegment (rule : string) : option string :=
  match after "/" rule with
  | None => Some ("https://eslint.org/docs/rules/" ++ rule)
  | Some remainder => docs (before "/" rule) (before "/" remainder)
  end.

(** [needle] occurs in [s]. *)
Definition contains (needle s : string) : Prop :=
  exists pre post, s = pre ++ needle ++ post.

Definition marked (b : string) : Prop :=
  contains "[review skip]" b \/ contains "[no review]" b
  \/ contains "[skip review]" b.

Fixpoint endsWith (suffix s : string) : bool :=
  (s =? suffix) ||
  match s with
  | EmptyString => false
  | String _ s' => endsWith suffix s'
  end.

Definition hasSourceExtension (path : string) : bool :=
  endsWith ".js" path || endsWith ".jsx" path || endsWith ".ts" path
  || endsWith ".tsx" path.

(** The diff resolver of the specification: of the changed paths, those
    under the prefix with one of the four extensions, prefix removed. *)
Definition diffResolver (prefix : string) (changed : list string)
  : list string :=
  map (Shell.drop (String.length prefix + 1))
    (filter (fun path => Js.startsWith (prefix ++ "/") path
                         && hasSourceExtension path)
       changed).

Section Sentences.

Variable JSON_parse : string -> Result (list File).
Variable JSON_stringify : list File -> string.
Variable path_relative : string -> string -> string.

(** "Absence of the summary destination is a configuration error raised
    before any linting work and before any summary content." *)
Definition sinkCheckedFirst (w : World) : Prop :=
  GITHUB_STEP_SUMMARY w = None ->
  let run := handler JSON_parse JSON_stringify path_relative w in
  outcome run
    = inl (JsError "No step summary filename passed in environment!")
  /\ existsb isSpawn (trace run) = false
  /\ summaries (trace run) = [].

End Sentences.

End Spec.

(** ** Concrete runs *)

Module Example.

Definition root : string := "/home/runner/work/app/app".

(** The action is configured with [prefix: pkg] and no working
    directory. *)
Definition inputs (name : string) (required : bool) : Result string :=
  if name =? "prefix" then inr "pkg"
  else if required
       then inl (JsError ("Input required and not supplied: " ++ name))
       else inr EmptyString.

Definition unused : Message :=
  Message.mk "no-unused-vars" 1 "'x' is defined but never used." 3 7
    "Identifier" "unusedVar" 3 8.

Definition focused : Message :=
  Message.mk "jest/no-focused-tests" 1 "Unexpected focused test." 10 1
    "MemberExpression" "focusedTest" 10 8.

(** The findings of each file. *)
Definition findings (path : string) : list Message :=
  if path =? "a.ts" then [unused]
  else if path =? "c.test.tsx" then [focused; unused]
  else [].

(** A linter that reports on the files it is given, in compact JSON, and
    exits with 0 (all findings are warnings). *)
Definition eslint (files : list string) : Shell.Child :=
  {| Shell.exitStatus := 0;
     Shell.output :=
       Json.stringify 0
         (map (fun f => mkFile (root ++ "/pkg/" ++ f) (findings f)) files);
     Shell.duration := 42000 |}.

(** A linter that crashes. *)
Definition eslintCrashes (files : list string) : Shell.Child :=
  {| Shell.exitStatus := 2;
     Shell.output := EmptyString;
     Shell.duration := 1200 |}.

(** A linter that never comes back. *)
Definition eslintHangs (files : list string) : Shell.Child :=
  {| Shell.exitStatus := 0;
     Shell.output := "[]";
     Shell.duration := 3600000 |}.

Definition pull (body : option string) : PullData :=
  {| body := body; baseSha := "A"; headSha := "B" |}.

Definition world (body summary : option string) (changed : list string)
  (linter : list string -> Shell.Child) : World :=
  {| getInput := inputs;
     pullRequest := ("Graylog2", "graylog2-server", 17%Z);
     pulls_get := fun _ _ _ => inr (pull body);
     spawnSync :=
       fun _ timeout =>
         Shell.spawned (linter (Shell.lintedFiles "pkg" changed)) timeout;
     GITHUB_STEP_SUMMARY := summary;
     writeFileSync := fun _ _ => inr tt;
     cwd := root |}.

Definition run (w : World) : Action unit :=
  handler Json.parse (Json.stringify 2) Path.relative w.

(** What [git diff] prints for the pull request of the examples. *)
Definition changed : list string :=
  ["pkg/a.ts"; "pkg/b.ts"; "docs/readme.md"; "pkg/c.test.tsx"].

Definition answer (linter : list string -> Shell.Child)
  (changed : list string) : SpawnResult :=
  Shell.spawned (linter (Shell.lintedFiles "pkg" changed)) LINTER_TIMEOUT.

(** The report of [eslint] on the changed sources. *)
Definition results : list File :=
  [mkFile (root ++ "/pkg/a.ts") [unused];
   mkFile (root ++ "/pkg/b.ts") [];
   mkFile (root ++ "/pkg/c.test.tsx") [focused; unused]].

(** An ordinary run. *)
Definition reviewed : World :=
  world (Some "fix things") (Some "/tmp/summary.md") changed eslint.

(** The same run without [GITHUB_STEP_SUMMARY]. *)
Definition unconfigured : World :=
  world (Some "fix things") None changed eslint.

(** A pull request that asks not to be reviewed. *)
Definition skipped : World :=
  world (Some "please review [skip review] thanks") None changed eslint.

(** A linter that overruns the timeout. *)
Definition hung : World :=
  world None (Some "/tmp/summary.md") changed eslintHangs.

(** A linter that crashes on the changed sources. *)
Definition crashed : World :=
  world None (Some "/tmp/summary.md") changed eslintCrashes.

(** A pull request that changes no source file. *)
Definition docsOnly : list string := ["pkg/README.md"; "docs/readme.md"].

Definition nothingToLint (linter : list string -> Shell.Child) : World :=
  world None (Some "/tmp/summary.md") docsOnly linter.

(** An action without its [prefix] input. *)
Definition noInputs (name : string) (required : bool) : Result string :=
  if required
  then inl (JsError ("Input required and not supplied: " ++ name))
  else inr EmptyString.

Definition unprefixed : World :=
  {| getInput := noInputs;
     pullRequest := ("Graylog2", "graylog2-server", 17%Z);
     pulls_get := fun _ _ _ => inr (pull None);
     spawnSync := fun _ _ => answer eslint changed;
     GITHUB_STEP_SUMMARY := Some "/tmp/summary.md";
     writeFileSync := fun _ _ => inr tt;
     cwd := root |}.

(** The pull request cannot be fetched. *)
Definition unreachable : World :=
  {| getInput := inputs;
     pullRequest := ("Graylog2", "graylog2-server", 17%Z);
     pulls_get := fun _ _ _ => inl (JsError "HttpError: Not Found");
     spawnSync := fun _ _ => answer eslint changed;
     GITHUB_STEP_SUMMARY := Some "/tmp/summary.md";
     writeFileSync := fun _ _ => inr tt;
     cwd := root |}.

(** The summary file cannot be written. *)
Definition readOnly : World :=
  {| getInput := inputs;
     pullRequest := ("Graylog2", "graylog2-server", 17%Z);
     pulls_get := fun _ _ _ => inr (pull None);
     spawnSync := fun _ _ => answer eslint changed;
     GITHUB_STEP_SUMMARY := Some "/proc/summary.md";
     writeFileSync := fun _ _ => inl (JsError "EACCES: permission denied");
     cwd := root |}.

(** The programs of the runner, by name. *)
Definition installed (name : string) : option Shell.Child :=
  if (name =? "git") || (name =? "grep") || (name =? "sed")
     || (name =? "xargs") || (name =? "yarn")
  then Some {| Shell.exitStatus := 0;
               Shell.output := EmptyString;
               Shell.duration := 10 |}
  else None.

(** A runner where [spawnSync] starts programs by name.  What the pull
    request changes plays no part on it: [git] is never asked. *)
Definition onRunner : World :=
  {| getInput := inputs;
     pullRequest := ("Graylog2", "graylog2-server", 17%Z);
     pulls_get := fun _ _ _ => inr (pull None);
     spawnSync := Node.spawnSync installed;
     GITHUB_STEP_SUMMARY := Some "/tmp/summary.md";
     writeFileSync := fun _ _ => inr tt;
     cwd := root |}.

(** What the callback of [child_process.exec] receives when the pipeline
    runs [linter] on the changed sources. *)
Definition printed (linter : list string -> Shell.Child)
  (changed : list string) (command : string) : string :=
  Shell.output (linter (Shell.lintedFiles "pkg" changed)).

End Example.

(** * Properties *)

(** ** Strings *)

Lemma startsWith_app (needle post : string) :
  Js.startsWith needle (needle ++ post) = true.
Proof.
  induction needle as [|a needle IH]; simpl; [reflexivity|].
  now rewrite Ascii.eqb_refl, IH.
Qed.

Lemma startsWith_inv (needle s : string) :
  Js.startsWith needle s = true -> exists post, s = needle ++ post.
Proof.
  revert s; induction needle as [|a needle IH]; intros s H.
  - now exists s.
  - destruct s as [|b s]; simpl in H; [discriminate|].
    apply andb_true_iff in H as [Hab Hrest].
    apply Ascii.eqb_eq in Hab; subst b.
    destruct (IH _ Hrest) as [post ->].
    now exists post.
Qed.

Lemma includes_contains (needle s : string) :
  Js.includes needle s = true <-> Spec.contains needle s.
Proof.
  split.
  - induction s as [|c s IH]; simpl; intros H.
    + rewrite orb_false_r in H.
      destruct (startsWith_inv _ _ H) as [post Hpost].
      now exists EmptyString, post.
    + apply orb_true_iff in H as [H|H].
      * destruct (startsWith_inv _ _ H) as [post Hpost].
        now exists EmptyString, post.
      * destruct (IH H) as (pre & post & ->).
        now exists (String c pre), post.
  - intros (pre & post & ->).
    induction pre as [|c pre IH].
    + simpl (EmptyString ++ _).
      destruct (needle ++ post) eqn:E; simpl;
        rewrite <- ?E, startsWith_app; reflexivity.
    + simpl. rewrite IH. apply orb_true_r.
Qed.

(** The segments of a rule are the text before the first [/], then the
    segments of what follows it. *)
Lemma split_before_after (s : string) :
  Js.split "/" s
  = Spec.before "/" s
      :: match Spec.after "/" s with
         | None => []
         | Some r => Js.split "/" r
         end.
Proof.
  induction s as [|a s IH]; [reflexivity|].
  cbn [Js.split Spec.before Spec.after].
  destruct (Ascii.eqb a "/"); [reflexivity|].
  now rewrite IH.
Qed.

Lemma before_without (c : ascii) (s : string) :
  Spec.after c s = None -> Spec.before c s = s.
Proof.
  induction s as [|a s IH]; [reflexivity|].
  cbn [Spec.before Spec.after].
  destruct (Ascii.eqb a c); [discriminate|].
  intros H. now rewrite IH.
Qed.

Lemma ruleUrl_urlBySegment (rule : string) :
  ruleUrl rule = Spec.urlBySegment rule.
Proof.
  unfold ruleUrl, Spec.urlBySegment.
  rewrite split_before_after.
  destruct (Spec.after "/" rule) as [r|]; [|reflexivity].
  rewrite (split_before_after r).
  cbn [length Nat.eqb nth_error Js.interpolate].
  reflexivity.
Qed.

Lemma url_truthy (rule url : string) :
  ruleUrl rule = Some url -> Js.truthy url = true.
Proof.
  rewrite ruleUrl_urlBySegment.
  unfold Spec.urlBySegment, Spec.docs.
  destruct (Spec.after "/" rule);
    repeat match goal with
           | |- context [if ?b then _ else _] => destruct b
           end;
    intros [= <-]; reflexivity.
Qed.

Lemma count_after (c : ascii) (s : string) :
  match Spec.after c s with
  | None => Spec.count c s = O
  | Some r => Spec.count c s = S (Spec.count c r)
  end.
Proof.
  induction s as [|a s IH]; [reflexivity|].
  cbn [Spec.after Spec.count].
  destruct (Ascii.eqb a c); [reflexivity|exact IH].
Qed.

(** ** The pattern of [grep] *)

Module ShellFacts.

Import Shell.

Lemma append_nil_r (s : string) : s ++ EmptyString = s.
Proof. induction s as [|a s IH]; [reflexivity|]. cbn. now rewrite IH. Qed.

Lemma append_assoc (s1 s2 s3 : string) : (s1 ++ s2) ++ s3 = s1 ++ s2 ++ s3.
Proof. induction s1 as [|a s1 IH]; [reflexivity|]. cbn. now rewrite IH. Qed.

Lemma append_empty (s1 s2 : string) :
  s1 ++ s2 = EmptyString -> s1 = EmptyString /\ s2 = EmptyString.
Proof. destruct s1; [now split|discriminate]. Qed.

Lemma nullable_lang (r : regex) : nullable r = true <-> lang r EmptyString.
Proof.
  split.
  - induction r; cbn; intros H; try discriminate.
    + constructor.
    + apply andb_true_iff in H as [H1 H2].
      change EmptyString with (EmptyString ++ EmptyString).
      constructor; auto.
    + apply orb_true_iff in H as [H|H]; [apply lang_alt_l|apply lang_alt_r];
        auto.
    + constructor.
  - intros H. remember EmptyString as s eqn:Es.
    induction H as [| | | |r1 r2 s1 s2 _ IH1 _ IH2|r1 r2 s _ IH|r1 r2 s _ IH
                   | |]; cbn; try discriminate; try reflexivity.
    + apply append_empty in Es as [-> ->].
      now rewrite IH1, IH2.
    + now rewrite IH.
    + rewrite IH by assumption. apply orb_true_r.
Qed.

Lemma deriv_sound (a : ascii) (r : regex) (s : string) :
  lang (deriv a r) s -> lang r (String a s).
Proof.
  revert s. induction r; intros s H; cbn in H.
  - inversion H.
  - inversion H; subst. constructor.
  - destruct (Ascii.eqb_spec a c); inversion H; subst. constructor.
  - destruct (existsb (Ascii.eqb a) cs) eqn:E; inversion H; subst.
    constructor. apply existsb_exists in E as (x & Hin & Hx).
    apply Ascii.eqb_eq in Hx. now subst.
  - destruct (nullable r1) eqn:N.
    + inversion H as [| | | | | ? ? ? H1| ? ? ? H2 | |]; subst.
      * inversion H1; subst.
        change (String a (s1 ++ s2)) with (String a s1 ++ s2).
        constructor; auto.
      * change (String a s) with (EmptyString ++ String a s).
        constructor; [now apply nullable_lang|auto].
    + inversion H; subst.
      change (String a (s1 ++ s2)) with (String a s1 ++ s2).
      constructor; auto.
  - inversion H; subst; [apply lang_alt_l|apply lang_alt_r]; auto.
  - inversion H; subst.
    change (String a (s1 ++ s2)) with (String a s1 ++ s2).
    constructor; auto.
  - inversion H.
Qed.

Lemma deriv_complete (a : ascii) (r : regex) (s : string) :
  lang r (String a s) -> lang (deriv a r) s.
Proof.
  intros H. remember (String a s) as t eqn:Et.
  revert s Et.
  induction H as [|c|c|c cs Hin|r1 r2 s1 s2 H1 IH1 H2 IH2|r1 r2 s1 H1 IH1
                 |r1 r2 s1 H1 IH1|r1|r1 s1 s2 H1 IH1 H2 IH2];
    intros s Et; try discriminate.
  - injection Et as -> <-. cbn. constructor.
  - injection Et as -> <-. cbn. rewrite Ascii.eqb_refl. constructor.
  - injection Et as -> <-. cbn.
    assert (E : existsb (Ascii.eqb a) cs = true).
    { apply existsb_exists. exists a. split; [assumption|].
      apply Ascii.eqb_refl. }
    rewrite E. constructor.
  - cbn. destruct s1 as [|b s1].
    + cbn in Et. subst s2.
      assert (N : nullable r1 = true) by now apply nullable_lang.
      rewrite N. apply lang_alt_r. auto.
    + cbn in Et. injection Et as -> <-.
      destruct (nullable r1).
      * apply lang_alt_l. constructor; auto.
      * constructor; auto.
  - cbn. apply lang_alt_l. auto.
  - cbn. apply lang_alt_r. auto.
  - cbn. destruct s1 as [|b s1].
    + cbn in Et. auto.
    + cbn in Et. injection Et as -> <-.
      constructor; auto.
Qed.

(** The matcher decides membership. *)
Lemma matches_lang (r : regex) (s : string) :
  matches r s = true <-> lang r s.
Proof.
  revert r. induction s as [|a s IH]; intros r; cbn.
  - apply nullable_lang.
  - rewrite IH. split; [apply deriv_sound|apply deriv_complete].
Qed.

Lemma lang_literal (p s : string) : lang (literal p) s <-> s = p.
Proof.
  revert s. induction p as [|a p IH]; intros s; cbn; split; intros H.
  - now inversion H.
  - subst. constructor.
  - inversion H as [| | | | ? ? ? ? H1 H2| | | |]; subst.
    inversion H1; subst. apply IH in H2. now subst.
  - subst. change (String a p) with (String a EmptyString ++ p).
    constructor; [constructor|now apply IH].
Qed.

Lemma lang_any_star (s : string) : lang (Star Any) s.
Proof.
  induction s as [|a s IH]; [constructor|].
  change (String a s) with (String a EmptyString ++ s).
  constructor; [constructor|assumption].
Qed.

(** The lines that [grep] lets through: the prefix, a [/], any text, one
    more character of any kind, and [js], [ts], [jsx] or [tsx]. *)
Lemma grep_selects (prefix line : string) :
  matches (grepPattern prefix) line = true
  <-> exists stem c ending,
      line = prefix ++ "/" ++ stem ++ String c ending
      /\ In ending ["js"; "ts"; "jsx"; "tsx"].
Proof.
  rewrite matches_lang. unfold grepPattern, Opt. split.
  - intros H.
    inversion H as [| | | | ? ? p s1 Hp H1| | | |]; subst; clear H.
    apply lang_literal in Hp; subst p.
    inversion H1 as [| | | | ? ? sl s2 Hsl H2| | | |]; subst; clear H1.
    inversion Hsl; subst; clear Hsl.
    inversion H2 as [| | | | ? ? stem s3 _ H3| | | |]; subst; clear H2.
    inversion H3 as [| | | | ? ? sc s4 Hc H4| | | |]; subst; clear H3.
    inversion Hc; subst; clear Hc.
    inversion H4 as [| | | | ? ? sj s5 Hj H5| | | |]; subst; clear H4.
    inversion Hj as [| | |j ? Hin | | | | |]; subst; clear Hj.
    inversion H5 as [| | | | ? ? ss s6 Hs H6| | | |]; subst; clear H5.
    inversion Hs; subst; clear Hs.
    exists stem, c. eexists. split; [reflexivity|].
    cbn [String.append].
    inversion H6 as [| | | | | ? ? ? Hx| ? ? ? He | |]; subst; clear H6.
    + inversion Hx; subst.
      destruct Hin as [<-|[<-|[]]]; cbn; auto.
    + inversion He; subst.
      destruct Hin as [<-|[<-|[]]]; cbn; auto.
  - intros (stem & c & ending & -> & Hin).
    constructor; [now apply lang_literal|].
    change ("/" ++ stem ++ String c ending)
      with (String "/" EmptyString ++ stem ++ String c ending).
    constructor; [constructor|].
    constructor; [apply lang_any_star|].
    change (String c ending) with (String c EmptyString ++ ending).
    constructor; [constructor|].
    assert (Hend : exists j opt,
               ending = String j EmptyString ++ String "s" EmptyString ++ opt
               /\ In j ["j"; "t"]%char
               /\ lang (Alt (Chr "x") Eps) opt).
    { cbn in Hin.
      destruct Hin as [<-|[<-|[<-|[<-|[]]]]].
      - exists "j"%char, EmptyString. cbn.
        repeat split; auto. apply lang_alt_r. constructor.
      - exists "t"%char, EmptyString. cbn.
        repeat split; auto. apply lang_alt_r. constructor.
      - exists "j"%char, "x". cbn.
        repeat split; auto. apply lang_alt_l. constructor.
      - exists "t"%char, "x". cbn.
        repeat split; auto. apply lang_alt_l. constructor. }
    destruct Hend as (j & opt & -> & Hj & Hopt).
    constructor; [now constructor|].
    constructor; [constructor|assumption].
Qed.

Lemma count_append (c : ascii) (s1 s2 : string) :
  Spec.count c (s1 ++ s2) = (Spec.count c s1 + Spec.count c s2)%nat.
Proof.
  induction s1 as [|a s1 IH]; [reflexivity|].
  cbn. destruct (Ascii.eqb a c); cbn; now rewrite IH.
Qed.

Lemma endsWith_suffix (suffix s : string) :
  Spec.endsWith suffix s = true -> exists pre, s = pre ++ suffix.
Proof.
  induction s as [|a s IH]; cbn [Spec.endsWith]; intros H.
  - rewrite orb_false_r in H. apply String.eqb_eq in H.
    exists EmptyString. now subst.
  - apply orb_true_iff in H as [H|H].
    + apply String.eqb_eq in H. exists EmptyString. now subst.
    + destruct (IH H) as [pre ->]. now exists (String a pre).
Qed.

(** A suffix without [/] of a path under the prefix lies after the
    prefix. *)
Lemma suffix_after_prefix (prefix rest pre suffix : string) :
  (prefix ++ "/") ++ rest = pre ++ suffix ->
  Spec.count "/" suffix = O ->
  exists stem, rest = stem ++ suffix.
Proof.
  revert pre. induction prefix as [|a prefix IH]; intros pre E Hc.
  - destruct pre as [|b pre]; cbn in E.
    + subst suffix. cbn in Hc. discriminate.
    + injection E as _ E. now exists pre.
  - destruct pre as [|b pre]; cbn in E.
    + subst suffix. cbn in Hc. rewrite !count_append in Hc. cbn in Hc.
      destruct (Ascii.eqb a "/"); lia.
    + injection E as _ E. eapply IH; eassumption.
Qed.

(** Every changed file that the specification's resolver returns reaches
    the linter. *)
Lemma resolver_within (prefix : string) (changed : list string) :
  incl (Spec.diffResolver prefix changed) (lintedFiles prefix changed).
Proof.
  intros p Hin. unfold Spec.diffResolver in Hin.
  apply in_map_iff in Hin as (path & <- & Hin).
  apply filter_In in Hin as [Hin Hok].
  apply andb_true_iff in Hok as [Hstart Hext].
  unfold lintedFiles. apply in_map_iff. exists path. split.
  - unfold sed. now rewrite Hstart.
  - unfold grep. apply filter_In. split; [assumption|].
    apply grep_selects.
    destruct (startsWith_inv _ _ Hstart) as [rest ->].
    assert (Hsuf : exists ending,
               In ending ["js"; "ts"; "jsx"; "tsx"]
               /\ Spec.endsWith (String "." ending)
                    ((prefix ++ "/") ++ rest) = true).
    { unfold Spec.hasSourceExtension in Hext.
      repeat (apply orb_true_iff in Hext as [Hext|Hext]);
        eexists; (split; [|exact Hext]); cbn; auto. }
    destruct Hsuf as (ending & Hending & Hends).
    destruct (endsWith_suffix _ _ Hends) as [pre Hpre].
    destruct (suffix_after_prefix _ _ _ _ Hpre) as [stem ->].
    { cbn in Hending.
      destruct Hending as [<-|[<-|[<-|[<-|[]]]]]; reflexivity. }
    exists stem, "."%char, ending. split; [|assumption].
    now rewrite append_assoc.
Qed.

End ShellFacts.

(** ** Rule documentation (C3) *)

(** C3, as worded, fails: a rule id is not all of the text after the
    first [/].  For the rule [@typescript-eslint/tslint/config] the code
    builds the URL from [tslint], the wording from [tslint/config]. *)
Lemma rule_id_is_not_the_remainder :
  ruleUrl "@typescript-eslint/tslint/config"
  <> Spec.urlByRemainder "@typescript-eslint/tslint/config".
Proof.
  vm_compute. discriminate.
Qed.

(** C3, amended: rule-to-URL resolution is a total function of the rule
    string.  A rule without [/] maps to the ESLint documentation of that
    rule; a rule whose text before the first [/] is [jest],
    [testing-library] or [@typescript-eslint] maps to that plugin's page
    for the id read from the first [/] up to the next [/] or the end of the
    rule (all of the remainder for a rule with a single [/]); any other
    namespace has no URL, and the message is then the generic one. *)
Theorem rule_url_resolution (rule : string) :
  ruleUrl rule = Spec.urlBySegment rule
  /\ formatRuleMessage rule
     = match ruleUrl rule with
       | Some url => "See " ++ url ++ " for details."
       | None => "No further rule information available."
       end
  /\ ((Spec.count "/" rule <= 1)%nat ->
      ruleUrl rule = Spec.urlByRemainder rule).
Proof.
  split; [apply ruleUrl_urlBySegment|split].
  - unfold formatRuleMessage.
    destruct (ruleUrl rule) as [url|] eqn:E; [|reflexivity].
    now rewrite (url_truthy _ E).
  - intros Hcount. rewrite ruleUrl_urlBySegment.
    unfold Spec.urlBySegment, Spec.urlByRemainder.
    pose proof (count_after "/" rule) as H1.
    destruct (Spec.after "/" rule) as [r|]; [|reflexivity].
    pose proof (count_after "/" r) as H2.
    destruct (Spec.after "/" r) as [r'|] eqn:E; [lia|].
    now rewrite (before_without _ _ E).
Qed.

Lemma rule_url_resolution_witness :
  (Spec.count "/" "jest/no-focused-tests" <= 1)%nat
  /\ ruleUrl "jest/no-focused-tests"
     = Some "https://github.com/jest-community/eslint-plugin-jest/blob/main/docs/rules/no-focused-tests.md".
Proof.
  split; [vm_compute; lia|].
  rewrite (proj2 (proj2 (rule_url_resolution "jest/no-focused-tests")));
    [reflexivity|vm_compute; lia].
Defined.

(** ** The emoji of the summary (C6) *)

(** C6: the emoji is decided by the two bounds 10 and 100: from 1 to 10
    findings it is [:worried:], from 11 to 100 [:disappointed_relieved:],
    above 100 [:sob:]; the four values next to the bounds are as listed. *)
Theorem worriedEmoji_boundaries :
  (forall n : Z,
      ((1 <= n <= 10)%Z -> worriedEmoji n = ":worried:")
      /\ ((11 <= n <= 100)%Z -> worriedEmoji n = ":disappointed_relieved:")
      /\ ((100 < n)%Z -> worriedEmoji n = ":sob:"))
  /\ worriedEmoji 10 = ":worried:"
  /\ worriedEmoji 11 = ":disappointed_relieved:"
  /\ worriedEmoji 100 = ":disappointed_relieved:"
  /\ worriedEmoji 101 = ":sob:".
Proof.
  split; [|now vm_compute].
  intros n. unfold worriedEmoji.
  destruct (Z.ltb_spec 100 n), (Z.ltb_spec 10 n);
    repeat split; intros; solve [reflexivity | lia].
Qed.

Lemma worriedEmoji_boundaries_witness :
  worriedEmoji 7 = ":worried:"
  /\ worriedEmoji 64 = ":disappointed_relieved:"
  /\ worriedEmoji 2048 = ":sob:".
Proof.
  destruct worriedEmoji_boundaries as [H _].
  split; [|split].
  - apply (proj1 (H 7%Z)); lia.
  - apply (proj1 (proj2 (H 64%Z))); lia.
  - apply (proj2 (proj2 (H 2048%Z))); lia.
Defined.

(** ** Runs of the handler *)

Section Runs.

Variable JSON_parse : string -> Result (list File).
Variable JSON_stringify : list File -> string.
Variable path_relative : string -> string -> string.
Variable w : World.

Local Abbreviation run := (handler JSON_parse JSON_stringify path_relative w).

(** The events of every run before the skip check. *)
Local Abbreviation started data :=
  [Debug ("Started for PR " ++ Js.numberToString (snd (pullRequest w))
            ++ " in repo " ++ snd (fst (pullRequest w)) ++ " from "
            ++ fst (fst (pullRequest w)) ++ ".");
   Debug ("Base SHA: " ++ baseSha data ++ ", head SHA: " ++ headSha data)].

Lemma forEach_emit {A} (f : A -> Event) (xs : list A) :
  forEach xs (fun a => emit (f a)) = (map f xs, inr tt).
Proof.
  induction xs as [|x xs IH]; [reflexivity|].
  cbn [forEach]. rewrite IH. reflexivity.
Qed.

Lemma writeSummary_run (summary : string) :
  writeSummary w summary
  = match GITHUB_STEP_SUMMARY w with
    | None =>
        ([], inl (JsError "No step summary filename passed in environment!"))
    | Some filename =>
        ([WriteFile filename summary], writeFileSync w filename summary)
    end.
Proof.
  unfold writeSummary.
  destruct (GITHUB_STEP_SUMMARY w) as [filename|]; [|reflexivity].
  unfold bind, emit, lift. reflexivity.
Qed.

Lemma fold_add (ns : list Z) (acc : Z) :
  fold_left (fun prev cur => (prev + cur)%Z) ns acc
  = (acc + fold_right Z.add 0%Z ns)%Z.
Proof.
  revert acc; induction ns as [|n ns IH]; intros acc; simpl.
  - lia.
  - rewrite IH. lia.
Qed.

(** [totalErrors] counts the annotations. *)
Lemma totalErrors_annotations (workingDirectory : string)
  (results : list File) :
  totalErrors results
  = Z.of_nat (length (annotations path_relative w workingDirectory results)).
Proof.
  unfold totalErrors, annotations.
  rewrite fold_add.
  induction (filesWithErrors results) as [|f fs IH]; [reflexivity|].
  cbn [map fold_right flat_map].
  rewrite length_app, length_map, Nat2Z.inj_add. lia.
Qed.

(** What the reporting part does, event by event. *)
Lemma report_run (workingDirectory : string) (results : list File) :
  report JSON_stringify path_relative w workingDirectory results
  = let files :=
      Debug ("Files with errors: "
               ++ JSON_stringify (filesWithErrors results)) in
    if (0 <? totalErrors results)%Z then
      let summary :=
        writeSummary w
          ("## Found " ++ Js.numberToString (totalErrors results)
             ++ " linter hints in the changed code. "
             ++ worriedEmoji (totalErrors results)) in
      ((files
         :: map (fun a => Warning (Annotation.message a) (rest a))
              (annotations path_relative w workingDirectory results)
         ++ SetFailed
              ("Found " ++ Js.numberToString (totalErrors results)
                 ++ " linter hints in the changed code.")
         :: trace summary)%list,
       outcome summary)
    else
      let summary := writeSummary w "## Your code looks awesome! :rocket:" in
      (files :: trace summary, outcome summary).
Proof.
  unfold report. cbv zeta.
  destruct (0 <? totalErrors results)%Z.
  - rewrite forEach_emit.
    destruct (writeSummary w _) as [t o].
    unfold bind, emit, trace, outcome. reflexivity.
  - destruct (writeSummary w _) as [t o].
    unfold bind, emit, trace, outcome. reflexivity.
Qed.

(** A run that gets as far as the linter: what it does depends on the
    answer of the child process and on the parser. *)
Lemma handler_lints (prefix workingDirectory : string) (data : PullData)
  (r : SpawnResult) :
  lints w prefix workingDirectory data r ->
  let cmd :=
    lintCommand (baseSha data) (headSha data) prefix workingDirectory in
  run
  = match status r with
    | Some 0%Z =>
        match JSON_parse (stdout r) with
        | inl e =>
            ((started data
               ++ [Debug ("Executing: " ++ cmd); Spawn cmd LINTER_TIMEOUT;
                   Debug ("Got result: " ++ stdout r)])%list,
             inl e)
        | inr results =>
            let reported :=
              report JSON_stringify path_relative w workingDirectory
                results in
            ((started data
               ++ [Debug ("Executing: " ++ cmd); Spawn cmd LINTER_TIMEOUT;
                   Debug ("Got result: " ++ stdout r)]
               ++ trace reported)%list,
             outcome reported)
        end
    | _ =>
        ((started data
           ++ [Debug ("Executing: " ++ cmd); Spawn cmd LINTER_TIMEOUT])%list,
         inl (rejection (error r)))
    end.
Proof.
  intros (Hprefix & Hwd & Hpull & Hskip & Hspawn) cmd.
  unfold handler. rewrite Hprefix, Hwd.
  destruct (pullRequest w) as [[owner repo] number]. cbn [fst snd] in *.
  cbn [lift bind Js.nullish app].
  rewrite Hpull. cbn [emit bind app]. rewrite Hskip.
  unfold lintDiff, exec. cbv zeta. rewrite Hspawn. subst cmd.
  destruct (status r) as [[|p|p]|]; try reflexivity.
  cbn [emit bind ret app lift].
  destruct (JSON_parse (stdout r)) as [e|results]; [reflexivity|].
  destruct (report _ _ _ _ _) as [t o]. reflexivity.
Qed.

(** A run whose pull request asks for a skip only writes debug lines. *)
Lemma handler_skips (data : PullData) :
  skips w data -> forallb isDebug (trace run) = true.
Proof.
  intros [Hpull Hskip]. unfold handler.
  destruct (getInput w "prefix" true) as [e|prefix]; [reflexivity|].
  destruct (getInput w "workingDirectory" false) as [e|input];
    [reflexivity|].
  destruct (pullRequest w) as [[owner repo] number]. cbn [fst snd] in *.
  cbn [lift bind Js.nullish app].
  rewrite Hpull. cbn [emit bind app]. rewrite Hskip. reflexivity.
Qed.

Lemma debug_only (t : list Event) :
  forallb isDebug t = true ->
  warnings t = [] /\ summaries t = [] /\ existsb isSpawn t = false
  /\ existsb isSetFailed t = false /\ existsb isWriteFile t = false.
Proof.
  induction t as [|e t IH]; [now repeat split|].
  destruct e; cbn; try discriminate. exact IH.
Qed.

Lemma warnings_app (t1 t2 : list Event) :
  warnings (t1 ++ t2) = (warnings t1 ++ warnings t2)%list.
Proof.
  induction t1 as [|e t1 IH]; [reflexivity|].
  destruct e; cbn; rewrite IH; reflexivity.
Qed.

Lemma warnings_emitted {A} (m : A -> string) (p : A -> Properties.t)
  (xs : list A) :
  warnings (map (fun a => Warning (m a) (p a)) xs)
  = map (fun a => (m a, p a)) xs.
Proof.
  induction xs as [|x xs IH]; [reflexivity|].
  cbn. now rewrite IH.
Qed.

Lemma writeSummary_warnings (summary : string) :
  warnings (trace (writeSummary w summary)) = [].
Proof.
  rewrite writeSummary_run.
  destruct (GITHUB_STEP_SUMMARY w); reflexivity.
Qed.

(** The annotations that the reporting part emits are those built from
    the files with findings, whatever the total. *)
Lemma report_warnings (workingDirectory : string) (results : list File) :
  warnings
    (trace (report JSON_stringify path_relative w workingDirectory results))
  = map (fun a => (Annotation.message a, rest a))
      (annotations path_relative w workingDirectory results).
Proof.
  rewrite report_run. cbv zeta.
  destruct (Z.ltb_spec 0 (totalErrors results)) as [Hpos|Hzero].
  - cbn [trace fst warnings].
    rewrite warnings_app, warnings_emitted. cbn [warnings].
    fold (trace (writeSummary w
                   ("## Found " ++ Js.numberToString (totalErrors results)
                      ++ " linter hints in the changed code. "
                      ++ worriedEmoji (totalErrors results)))).
    rewrite writeSummary_warnings. apply app_nil_r.
  - cbn [trace fst warnings].
    fold (trace (writeSummary w "## Your code looks awesome! :rocket:")).
    rewrite writeSummary_warnings.
    rewrite (totalErrors_annotations workingDirectory) in Hzero.
    destruct (annotations _ _ _ _) as [|a l]; [reflexivity|].
    cbn [length] in Hzero. lia.
Qed.

Lemma run_warnings (prefix workingDirectory : string) (data : PullData)
  (r : SpawnResult) (results : list File) :
  lints w prefix workingDirectory data r ->
  status r = Some 0%Z ->
  JSON_parse (stdout r) = inr results ->
  warnings (trace run)
  = map (fun a => (Annotation.message a, rest a))
      (annotations path_relative w workingDirectory results).
Proof.
  intros Hlints Hstatus Hparse.
  rewrite (handler_lints Hlints), Hstatus, Hparse. cbv zeta.
  cbn [trace fst app warnings].
  apply report_warnings.
Qed.

(** A run whose child process fails, or whose output is no JSON, stops
    there: nothing but debug lines and the spawn itself. *)
Lemma failed_lint (prefix workingDirectory : string) (data : PullData)
  (r : SpawnResult) :
  lints w prefix workingDirectory data r ->
  status r <> Some 0%Z \/ (exists e, JSON_parse (stdout r) = inl e) ->
  (exists e, outcome run = inl e)
  /\ forallb (fun e => isDebug e || isSpawn e) (trace run) = true.
Proof.
  intros Hlints Hfail.
  rewrite (handler_lints Hlints). cbv zeta.
  destruct (status r) as [[|p|p]|]; try (split; [eexists|]; reflexivity).
  destruct Hfail as [Hfail|[e Hfail]]; [congruence|].
  rewrite Hfail. split; [eexists|]; reflexivity.
Qed.

Lemma quiet_trace (t : list Event) :
  forallb (fun e => isDebug e || isSpawn e) t = true ->
  warnings t = [] /\ summaries t = [] /\ existsb isSetFailed t = false
  /\ existsb isWriteFile t = false.
Proof.
  induction t as [|e t IH]; [now repeat split|].
  destruct e; cbn; try discriminate; exact IH.
Qed.

Lemma filesWithErrors_spec (results : list File) (f : File) :
  In f (filesWithErrors results) <-> In f results /\ messages f <> [].
Proof.
  unfold filesWithErrors. rewrite filter_In.
  destruct (messages f) as [|m ms]; cbn; split; intros [Hin H];
    split; try assumption; try discriminate; try reflexivity; congruence.
Qed.

Lemma findings_of_filesWithErrors (results : list File) :
  flat_map messages (filesWithErrors results) = flat_map messages results.
Proof.
  unfold filesWithErrors.
  induction results as [|f fs IH]; [reflexivity|].
  cbn [filter flat_map].
  destruct (messages f) as [|m ms] eqn:E; cbn.
  - exact IH.
  - rewrite E, IH. reflexivity.
Qed.

Lemma annotations_length (workingDirectory : string) (results : list File) :
  length (annotations path_relative w workingDirectory results)
  = list_sum (map (fun f => length (messages f)) (filesWithErrors results)).
Proof.
  unfold annotations.
  induction (filesWithErrors results) as [|f fs IH]; [reflexivity|].
  cbn [flat_map map list_sum].
  now rewrite length_app, length_map, IH.
Qed.

(** ** Annotations (C1, C9) *)

(** C1: in a run that lints, the number of annotations emitted is the sum
    of the finding counts of the file results that have at least one
    finding; the file results handed to the formatting are exactly those,
    so a file result without findings yields no annotation. *)
Theorem annotation_count (prefix workingDirectory : string)
  (data : PullData) (r : SpawnResult) (results : list File) :
  lints w prefix workingDirectory data r ->
  status r = Some 0%Z ->
  JSON_parse (stdout r) = inr results ->
  length (warnings (trace run))
  = list_sum
      (map (fun f => length (messages f))
         (filter (fun f => negb (Nat.eqb (length (messages f)) 0)) results))
  /\ (forall f,
        In f (filesWithErrors results) <-> In f results /\ messages f <> [])
  /\ warnings (trace run)
     = map (fun a => (Annotation.message a, rest a))
         (annotations path_relative w workingDirectory results).
Proof.
  intros Hlints Hstatus Hparse.
  rewrite (run_warnings Hlints Hstatus Hparse).
  split; [|split; [apply filesWithErrors_spec|reflexivity]].
  rewrite length_map, annotations_length.
  unfold filesWithErrors. do 2 f_equal.
  apply filter_ext. intros f.
  destruct (messages f); reflexivity.
Qed.

(** C9: the spans of the annotations emitted are, in order, the
    [line], [column], [endLine] and [endColumn] of the findings, as they
    are. *)
Theorem span_copied (prefix workingDirectory : string)
  (data : PullData) (r : SpawnResult) (results : list File) :
  lints w prefix workingDirectory data r ->
  status r = Some 0%Z ->
  JSON_parse (stdout r) = inr results ->
  map (fun a => span (snd a)) (warnings (trace run))
  = map (fun m => (line m, column m, endLine m, endColumn m))
      (flat_map messages results).
Proof.
  intros Hlints Hstatus Hparse.
  rewrite (run_warnings Hlints Hstatus Hparse).
  rewrite <- findings_of_filesWithErrors.
  unfold annotations. rewrite map_map.
  induction (filesWithErrors results) as [|f fs IH]; [reflexivity|].
  cbn [flat_map]. rewrite !map_app, IH. f_equal.
  rewrite map_map. reflexivity.
Qed.

(** ** Failures of the linter (C2) *)

Lemma lintDiff_outcome (base head prefix workingDirectory : string) :
  outcome (lintDiff JSON_parse w base head prefix workingDirectory)
  = let r :=
      spawnSync w (lintCommand base head prefix workingDirectory)
        LINTER_TIMEOUT in
    match status r with
    | Some 0%Z => JSON_parse (stdout r)
    | _ => inl (rejection (error r))
    end.
Proof.
  unfold lintDiff, exec. cbv zeta.
  destruct (status (spawnSync w _ _)) as [[|p|p]|]; reflexivity.
Qed.


(** ** The trigger filter (C4, C10) *)

Lemma shouldBeSkipped_marked (b : option string) :
  shouldBeSkipped b = true <-> exists text, b = Some text /\ Spec.marked text.
Proof.
  unfold shouldBeSkipped, Spec.marked.
  destruct b as [text|].
  2:{ split; [discriminate|]. now intros (text & H & _). }
  split.
  - intros H. exists text. split; [reflexivity|].
    destruct text as [|c text]; [discriminate|]. cbn [Js.truthy] in H.
    apply orb_true_iff in H as [H|H].
    + apply orb_true_iff in H as [H|H].
      * left. now apply includes_contains.
      * right; left. now apply includes_contains.
    + right; right. now apply includes_contains.
  - intros (text' & [= <-] & H).
    assert (Hb : Js.includes "[review skip]" text
                 || Js.includes "[no review]" text
                 || Js.includes "[skip review]" text = true).
    { destruct H as [H|[H|H]]; apply includes_contains in H; rewrite H;
        rewrite ?orb_true_r; reflexivity. }
    destruct text as [|c text]; [discriminate Hb|exact Hb].
Qed.

(** C4: the filter asks for a skip exactly when the body is there and one
    of the three markers occurs in it, letter for letter (a marker in other
    letter case does not count); without a body it never does; and a run
    that skips starts no child process (neither diff nor linter) and emits
    no annotation. *)
Theorem trigger_filter :
  (forall b : option string,
      shouldBeSkipped b = true
      <-> exists text, b = Some text /\ Spec.marked text)
  /\ shouldBeSkipped None = false
  /\ shouldBeSkipped (Some "[Review Skip] [NO REVIEW] [skip Review]") = false
  /\ (forall data : PullData,
        skips w data ->
        existsb isSpawn (trace run) = false /\ warnings (trace run) = []).
Proof.
  split; [exact shouldBeSkipped_marked|do 2 (split; [reflexivity|])].
  intros data Hskip.
  destruct (debug_only _ (handler_skips Hskip)) as (Hw & _ & Hs & _).
  now split.
Qed.

(** C10: a run whose pull request body asks for a skip emits no
    annotation, does not set the failure status and writes no summary; all
    it emits are debug lines. *)
Theorem skip_is_silent (data : PullData) :
  skips w data ->
  warnings (trace run) = []
  /\ existsb isSetFailed (trace run) = false
  /\ summaries (trace run) = []
  /\ existsb isWriteFile (trace run) = false
  /\ forallb isDebug (trace run) = true.
Proof.
  intros Hskip.
  pose proof (handler_skips Hskip) as Hdebug.
  destruct (debug_only _ Hdebug) as (Hw & Hs & _ & Hf & Hwf).
  now repeat split.
Qed.

(** ** The summary (C7) *)

Lemma past_warnings {A} (f : Event -> bool) (m : A -> string)
  (p : A -> Properties.t) (xs : list A) (t : list Event) :
  (forall msg properties, f (Warning msg properties) = false) ->
  existsb f (map (fun a => Warning (m a) (p a)) xs ++ t) = existsb f t.
Proof.
  intros Hf. induction xs as [|x xs IH]; [reflexivity|].
  cbn. now rewrite Hf, IH.
Qed.

Lemma summaries_past_warnings {A} (m : A -> string) (p : A -> Properties.t)
  (xs : list A) (t : list Event) :
  summaries (map (fun a => Warning (m a) (p a)) xs ++ t) = summaries t.
Proof.
  induction xs as [|x xs IH]; [reflexivity|exact IH].
Qed.

(** With a destination, exactly one summary is written: the count and
    its emoji when there are findings, the positive one otherwise. *)
Lemma summary_written (prefix workingDirectory filename : string)
  (data : PullData) (r : SpawnResult) (results : list File) :
  GITHUB_STEP_SUMMARY w = Some filename ->
  lints w prefix workingDirectory data r ->
  status r = Some 0%Z ->
  JSON_parse (stdout r) = inr results ->
  summaries (trace run)
  = [if (0 <? totalErrors results)%Z
     then "## Found " ++ Js.numberToString (totalErrors results)
            ++ " linter hints in the changed code. "
            ++ worriedEmoji (totalErrors results)
     else "## Your code looks awesome! :rocket:"].
Proof.
  intros Hsink Hlints Hstatus Hparse.
  rewrite (handler_lints Hlints), Hstatus, Hparse. cbv zeta.
  rewrite report_run. cbv zeta. rewrite !writeSummary_run, Hsink.
  destruct (0 <? totalErrors results)%Z;
    cbn [trace fst app summaries]; [|reflexivity].
  now rewrite summaries_past_warnings.
Qed.

(** C7, amended: without a summary destination, a run that lints and
    whose report is read fails with the configuration error; the error is
    raised by the summary step, after the child process has run and after
    the annotations (and, when there are findings, the failure status) have
    been emitted, and nothing is written. *)
Theorem missing_summary_sink (prefix workingDirectory : string)
  (data : PullData) (r : SpawnResult) (results : list File) :
  GITHUB_STEP_SUMMARY w = None ->
  lints w prefix workingDirectory data r ->
  status r = Some 0%Z ->
  JSON_parse (stdout r) = inr results ->
  outcome run
    = inl (JsError "No step summary filename passed in environment!")
  /\ existsb isSpawn (trace run) = true
  /\ warnings (trace run)
     = map (fun a => (Annotation.message a, rest a))
         (annotations path_relative w workingDirectory results)
  /\ existsb isSetFailed (trace run) = (0 <? totalErrors results)%Z
  /\ summaries (trace run) = [].
Proof.
  intros Hsink Hlints Hstatus Hparse.
  split; [|split; [|split; [exact (run_warnings Hlints Hstatus Hparse)|]]];
    rewrite (handler_lints Hlints), Hstatus, Hparse; cbv zeta.
  - rewrite report_run. cbv zeta. rewrite !writeSummary_run, Hsink.
    destruct (0 <? totalErrors results)%Z; reflexivity.
  - reflexivity.
  - rewrite report_run. cbv zeta. rewrite !writeSummary_run, Hsink.
    destruct (0 <? totalErrors results)%Z;
      cbn [trace outcome fst snd app existsb summaries isSetFailed orb].
    + rewrite past_warnings by reflexivity.
      rewrite summaries_past_warnings. split; reflexivity.
    + split; reflexivity.
Qed.

(** ** No file to lint (C8) *)

(** C8 does not hold: the lint runner starts no linter.  [spawnSync] is
    given the whole command line as the name of the program, and no program
    has that name; the lint runner throws the [ENOENT] error of the spawn,
    and the run is rejected with it, without a summary, whatever files the
    pull request changes, and so also when none is left to lint. *)
Theorem no_shell_no_linter (programs : string -> option Shell.Child)
  (prefix workingDirectory : string) (data : PullData) :
  let cmd :=
    lintCommand (baseSha data) (headSha data) prefix workingDirectory in
  lints w prefix workingDirectory data
    (Node.spawnSync programs cmd LINTER_TIMEOUT) ->
  programs cmd = None ->
  outcome (lintDiff JSON_parse w (baseSha data) (headSha data) prefix
             workingDirectory)
  = inl (JsError ("spawnSync " ++ cmd ++ " ENOENT"))
  /\ outcome run = inl (JsError ("spawnSync " ++ cmd ++ " ENOENT"))
  /\ warnings (trace run) = []
  /\ summaries (trace run) = [].
Proof.
  intros cmd Hlints Hnone.
  assert (Hspawn := proj2 (proj2 (proj2 (proj2 Hlints)))).
  fold cmd in Hspawn.
  assert (Hr : Node.spawnSync programs cmd LINTER_TIMEOUT
               = {| status := None; stdout := EmptyString;
                    error := Some ("spawnSync " ++ cmd ++ " ENOENT") |}).
  { unfold Node.spawnSync. now rewrite Hnone. }
  split; [|split].
  - rewrite lintDiff_outcome. cbv zeta. fold cmd. rewrite Hspawn, Hr.
    reflexivity.
  - rewrite (handler_lints Hlints), Hr. reflexivity.
  - assert (Hfail : status (Node.spawnSync programs cmd LINTER_TIMEOUT)
                    <> Some 0%Z
                    \/ (exists e,
                          JSON_parse
                            (stdout
                               (Node.spawnSync programs cmd LINTER_TIMEOUT))
                          = inl e)).
    { left. rewrite Hr. discriminate. }
    destruct (failed_lint Hlints Hfail) as [_ Hquiet].
    destruct (quiet_trace _ Hquiet) as (Hw & Hs & _).
    now split.
Qed.

End Runs.

(** ** The first revision *)

Section EarlierRuns.

Variable JSON_parse : string -> Result (list File).
Variable path_relative : string -> string -> string.
Variable w : World.
Variable childExec : string -> string.

Local Abbreviation earlier :=
  (Earlier.handler JSON_parse path_relative w childExec).

(** In the first revision the exit status of the child played no part:
    [exec] never rejected. *)
Lemma earlier_exec_resolves (command : string) :
  outcome (Earlier.exec childExec command) = inr (childExec command).
Proof. reflexivity. Qed.

Lemma earlier_warnings (prefix : string) (data : PullData)
  (results : list File) :
  getInput w "prefix" true = inr prefix ->
  pulls_get w (fst (fst (pullRequest w))) (snd (fst (pullRequest w)))
    (snd (pullRequest w)) = inr data ->
  shouldBeSkipped (body data) = false ->
  JSON_parse
    (childExec (Earlier.lintCommand (baseSha data) (headSha data) prefix))
  = inr results ->
  warnings (trace earlier)
  = map (fun a => (Annotation.message a, rest a))
      (Earlier.annotations path_relative w results).
Proof.
  intros Hprefix Hpull Hskip Hparse.
  unfold Earlier.handler. rewrite Hprefix.
  destruct (pullRequest w) as [[owner repo] number]. cbn [fst snd] in *.
  cbn [lift bind app]. rewrite Hpull. cbn [bind app]. rewrite Hskip.
  unfold Earlier.lintDiff, Earlier.exec. cbv zeta.
  cbn [emit ret lift bind app]. rewrite Hparse.
  assert (Hlen : totalErrors results
                 = Z.of_nat
                     (length (Earlier.annotations path_relative w results))).
  { unfold totalErrors, Earlier.annotations. rewrite fold_add.
    induction (filesWithErrors results) as [|f fs IH]; [reflexivity|].
    cbn [map fold_right flat_map].
    rewrite length_app, length_map, Nat2Z.inj_add. lia. }
  destruct (Z.ltb_spec 0 (totalErrors results)) as [Hpos|Hzero].
  - rewrite forEach_emit. cbn [emit bind trace fst app warnings].
    rewrite warnings_app, warnings_emitted. apply app_nil_r.
  - rewrite Hlen in Hzero.
    destruct (Earlier.annotations _ _ _) as [|a l]; [reflexivity|].
    cbn [length] in Hzero. lia.
Qed.

(** The spans were copied in the same way. *)
Lemma earlier_span_copied (prefix : string) (data : PullData)
  (results : list File) :
  getInput w "prefix" true = inr prefix ->
  pulls_get w (fst (fst (pullRequest w))) (snd (fst (pullRequest w)))
    (snd (pullRequest w)) = inr data ->
  shouldBeSkipped (body data) = false ->
  JSON_parse
    (childExec (Earlier.lintCommand (baseSha data) (headSha data) prefix))
  = inr results ->
  map (fun a => span (snd a)) (warnings (trace earlier))
  = map (fun m => (line m, column m, endLine m, endColumn m))
      (flat_map messages results).
Proof.
  intros Hprefix Hpull Hskip Hparse.
  rewrite (earlier_warnings Hprefix Hpull Hskip Hparse).
  rewrite <- findings_of_filesWithErrors.
  unfold Earlier.annotations. rewrite map_map.
  induction (filesWithErrors results) as [|f fs IH]; [reflexivity|].
  cbn [flat_map]. rewrite !map_app, IH. f_equal.
  rewrite map_map. reflexivity.
Qed.

End EarlierRuns.

(** ** The properties on concrete runs *)

Lemma annotation_count_witness :
  lints Example.reviewed "pkg" EmptyString (Example.pull (Some "fix things"))
    (Example.answer Example.eslint Example.changed)
  /\ length (warnings (trace (Example.run Example.reviewed))) = 3%nat.
Proof.
  split; [repeat split|].
  refine (eq_trans
            (proj1 (@annotation_count Json.parse (Json.stringify 2)
                      Path.relative Example.reviewed "pkg" EmptyString
                      (Example.pull (Some "fix things"))
                      (Example.answer Example.eslint Example.changed)
                      Example.results _ _ _)) _).
  - repeat split.
  - reflexivity.
  - vm_compute. reflexivity.
  - reflexivity.
Defined.

Lemma span_copied_witness :
  lints Example.reviewed "pkg" EmptyString (Example.pull (Some "fix things"))
    (Example.answer Example.eslint Example.changed)
  /\ map (fun a => span (snd a))
       (warnings (trace (Example.run Example.reviewed)))
     = [(3, 7, 3, 8); (10, 1, 10, 8); (3, 7, 3, 8)]%Z.
Proof.
  split; [repeat split|].
  refine (eq_trans
            (@span_copied Json.parse (Json.stringify 2) Path.relative
               Example.reviewed "pkg" EmptyString
               (Example.pull (Some "fix things"))
               (Example.answer Example.eslint Example.changed)
               Example.results _ _ _) _).
  - repeat split.
  - reflexivity.
  - vm_compute. reflexivity.
  - reflexivity.
Defined.


Lemma trigger_filter_witness :
  skips Example.skipped (Example.pull (Some "please review [skip review] thanks"))
  /\ existsb isSpawn (trace (Example.run Example.skipped)) = false
  /\ warnings (trace (Example.run Example.skipped)) = [].
Proof.
  split; [split; reflexivity|].
  apply (proj2 (proj2 (proj2 (@trigger_filter Json.parse (Json.stringify 2)
                                Path.relative Example.skipped)))
           (Example.pull (Some "please review [skip review] thanks"))).
  split; reflexivity.
Defined.

Lemma skip_is_silent_witness :
  skips Example.skipped (Example.pull (Some "please review [skip review] thanks"))
  /\ warnings (trace (Example.run Example.skipped)) = []
  /\ existsb isSetFailed (trace (Example.run Example.skipped)) = false
  /\ summaries (trace (Example.run Example.skipped)) = [].
Proof.
  split; [split; reflexivity|].
  destruct (@skip_is_silent Json.parse (Json.stringify 2) Path.relative
              Example.skipped
              (Example.pull (Some "please review [skip review] thanks")))
    as (Hw & Hf & Hs & _).
  - split; reflexivity.
  - repeat split; assumption.
Defined.

(** C7, as worded, fails: in a run without summary destination the
    linter has been started by the time the configuration error is
    raised. *)
Lemma summary_sink_checked_late :
  ~ Spec.sinkCheckedFirst Json.parse (Json.stringify 2) Path.relative
      Example.unconfigured.
Proof.
  intros H. destruct (H eq_refl) as (_ & Hspawn & _).
  vm_compute in Hspawn. discriminate.
Qed.

Lemma missing_summary_sink_witness :
  GITHUB_STEP_SUMMARY Example.unconfigured = None
  /\ outcome (Example.run Example.unconfigured)
     = inl (JsError "No step summary filename passed in environment!")
  /\ existsb isSpawn (trace (Example.run Example.unconfigured)) = true
  /\ length (warnings (trace (Example.run Example.unconfigured))) = 3%nat.
Proof.
  split; [reflexivity|].
  destruct (@missing_summary_sink Json.parse (Json.stringify 2) Path.relative
              Example.unconfigured "pkg" EmptyString
              (Example.pull (Some "fix things"))
              (Example.answer Example.eslint Example.changed)
              Example.results)
    as (Hout & Hspawn & Hw & _).
  - reflexivity.
  - repeat split.
  - reflexivity.
  - vm_compute. reflexivity.
  - split; [exact Hout|split; [exact Hspawn|]].
    unfold Example.run. rewrite Hw. reflexivity.
Defined.

Lemma no_shell_no_linter_witness :
  lints Example.onRunner "pkg" EmptyString (Example.pull None)
    (Node.spawnSync Example.installed (lintCommand "A" "B" "pkg" EmptyString)
       LINTER_TIMEOUT)
  /\ Example.installed (lintCommand "A" "B" "pkg" EmptyString) = None
  /\ outcome (lintDiff Json.parse Example.onRunner "A" "B" "pkg" EmptyString)
     = inl (JsError
              "spawnSync cd .//pkg; git diff --name-only --diff-filter=ACMR A...B | grep -E '^pkg/(.*).[jt]s(x)?$'|sed 's,^pkg/,,'|xargs yarn -s eslint -f json ENOENT")
  /\ summaries (trace (Example.run Example.onRunner)) = [].
Proof.
  split; [repeat split|split; [reflexivity|]].
  destruct (@no_shell_no_linter Json.parse (Json.stringify 2) Path.relative
              Example.onRunner Example.installed "pkg" EmptyString
              (Example.pull None))
    as (Hlint & _ & _ & Hsum).
  - repeat split.
  - reflexivity.
  - split; [exact Hlint|exact Hsum].
Defined.

(** ** The files that reach the linter (C5) *)

(** C5 does not hold of the pattern given to [grep]: its [.] before
    [[jt]s] stands for any character, so a changed path under the prefix
    whose name merely ends in [js], [ts], [jsx] or [tsx] after one more
    character is passed on as well, whatever its extension. *)
Theorem grep_takes_other_extensions :
  Shell.lintedFiles "pkg"
    ["pkg/a.ts"; "pkg/notes.mjs"; "pkg/bin/run-tests"; "pkg/README.md"]
  = ["a.ts"; "notes.mjs"; "bin/run-tests"]
  /\ Spec.diffResolver "pkg"
       ["pkg/a.ts"; "pkg/notes.mjs"; "pkg/bin/run-tests"; "pkg/README.md"]
     = ["a.ts"].
Proof. split; reflexivity. Qed.

(** ** Scenarios *)

(** Two changed files, one finding in the first: one annotation, the run
    marked failed, the count and [:worried:] in the summary. *)
Example scenario_one_finding :
  let t :=
    trace (Example.run
             (Example.world (Some "fix things") (Some "/tmp/summary.md")
                ["pkg/a.ts"; "pkg/b.ts"] Example.eslint)) in
  warnings t
  = [("See https://eslint.org/docs/rules/no-unused-vars for details.",
      {| Properties.title := "'x' is defined but never used.";
         Properties.file := "pkg/a.ts";
         Properties.startLine := 3; Properties.startColumn := 7;
         Properties.endLine := 3; Properties.endColumn := 8 |})]
  /\ existsb isSetFailed t = true
  /\ summaries t = ["## Found 1 linter hints in the changed code. :worried:"].
Proof. vm_compute. repeat split. Qed.

(** The linter overruns the timeout: the run is rejected with the error of
    the spawn, nothing is reported. *)
Example scenario_timeout :
  outcome (Example.run Example.hung) = inl (JsError "spawnSync ETIMEDOUT")
  /\ forallb (fun e => isDebug e || isSpawn e)
       (trace (Example.run Example.hung)) = true.
Proof. vm_compute. split; reflexivity. Qed.

(** The linter exits with status 2: the run is rejected with the [error]
    of the spawn result, which is [undefined] after a plain exit. *)
Example scenario_crash :
  outcome (Example.run Example.crashed) = inl JsUndefined
  /\ forallb (fun e => isDebug e || isSpawn e)
       (trace (Example.run Example.crashed)) = true.
Proof. vm_compute. split; reflexivity. Qed.

(** A body with a marker: three debug lines and nothing else. *)
Example scenario_skip :
  Example.run Example.skipped
  = ([Debug "Started for PR 17 in repo graylog2-server from Graylog2.";
      Debug "Base SHA: A, head SHA: B"; Debug "Skipping PR."],
     inr tt).
Proof. vm_compute. reflexivity. Qed.

(** * Further properties of the handler *)

Section Further.

Variable JSON_parse : string -> Result (list File).
Variable JSON_stringify : list File -> string.
Variable path_relative : string -> string -> string.
Variable w : World.

Local Abbreviation run := (handler JSON_parse JSON_stringify path_relative w).

Local Abbreviation started data :=
  [Debug ("Started for PR " ++ Js.numberToString (snd (pullRequest w))
            ++ " in repo " ++ snd (fst (pullRequest w)) ++ " from "
            ++ fst (fst (pullRequest w)) ++ ".");
   Debug ("Base SHA: " ++ baseSha data ++ ", head SHA: " ++ headSha data)].

(** The summary a run with these results writes. *)
Local Abbreviation summaryOf results :=
  (if Z.ltb 0 (totalErrors results)
   then "## Found " ++ Js.numberToString (totalErrors results)
          ++ " linter hints in the changed code. "
          ++ worriedEmoji (totalErrors results)
   else "## Your code looks awesome! :rocket:").

Lemma summaries_app (t1 t2 : list Event) :
  summaries (t1 ++ t2) = (summaries t1 ++ summaries t2)%list.
Proof.
  induction t1 as [|e t1 IH]; [reflexivity|].
  destruct e; cbn; rewrite IH; reflexivity.
Qed.

(** The trace of the reporting part, in full. *)
Lemma report_trace (workingDirectory : string) (results : list File) :
  trace (report JSON_stringify path_relative w workingDirectory results)
  = (Debug ("Files with errors: "
              ++ JSON_stringify (filesWithErrors results))
     :: map (fun a => Warning (Annotation.message a) (rest a))
          (annotations path_relative w workingDirectory results)
     ++ (if (0 <? totalErrors results)%Z
         then [SetFailed ("Found " ++ Js.numberToString (totalErrors results)
                            ++ " linter hints in the changed code.")]
         else [])
     ++ match GITHUB_STEP_SUMMARY w with
        | Some filename => [WriteFile filename (summaryOf results)]
        | None => []
        end)%list.
Proof.
  rewrite (report_run JSON_stringify path_relative). cbv zeta.
  destruct (Z.ltb_spec 0 (totalErrors results)) as [Hpos|Hzero];
    rewrite writeSummary_run; cbn [trace fst].
  - destruct (GITHUB_STEP_SUMMARY w); reflexivity.
  - rewrite (totalErrors_annotations path_relative w workingDirectory)
      in Hzero.
    destruct (annotations _ _ _ _) as [|a l]; [|cbn [length] in Hzero; lia].
    destruct (GITHUB_STEP_SUMMARY w); reflexivity.
Qed.

Lemma report_outcome (workingDirectory : string) (results : list File) :
  outcome (report JSON_stringify path_relative w workingDirectory results)
  = match GITHUB_STEP_SUMMARY w with
    | Some filename => writeFileSync w filename (summaryOf results)
    | None =>
        inl (JsError "No step summary filename passed in environment!")
    end.
Proof.
  rewrite (report_run JSON_stringify path_relative). cbv zeta.
  destruct (0 <? totalErrors results)%Z; rewrite writeSummary_run;
    destruct (GITHUB_STEP_SUMMARY w); reflexivity.
Qed.

(** Every run either stops before the linter with debug lines only, or
    gets as far as the linter. *)
Lemma handler_cases :
  forallb isDebug (trace run) = true
  \/ exists prefix workingDirectory data,
      lints w prefix workingDirectory data
        (spawnSync w
           (lintCommand (baseSha data) (headSha data) prefix
              workingDirectory)
           LINTER_TIMEOUT).
Proof.
  destruct (getInput w "prefix" true) as [e|prefix] eqn:Hprefix.
  { left. unfold handler. now rewrite Hprefix. }
  destruct (getInput w "workingDirectory" false) as [e|input] eqn:Hwd.
  { left. unfold handler. now rewrite Hprefix, Hwd. }
  destruct (pulls_get w (fst (fst (pullRequest w)))
              (snd (fst (pullRequest w))) (snd (pullRequest w)))
    as [e|data] eqn:Hpull.
  { left. unfold handler. rewrite Hprefix, Hwd.
    destruct (pullRequest w) as [[owner repo] number]. cbn [fst snd] in *.
    cbn [lift bind Js.nullish app]. now rewrite Hpull. }
  destruct (shouldBeSkipped (body data)) eqn:Hskip.
  - left.
    apply (@handler_skips JSON_parse JSON_stringify path_relative w data).
    now split.
  - right. exists prefix, input, data. now repeat split.
Qed.

(** The trace of a run that gets as far as the linter. *)
Lemma lints_trace (prefix workingDirectory : string) (data : PullData)
  (r : SpawnResult) :
  lints w prefix workingDirectory data r ->
  let cmd :=
    lintCommand (baseSha data) (headSha data) prefix workingDirectory in
  trace run
  = (started data
     ++ [Debug ("Executing: " ++ cmd); Spawn cmd LINTER_TIMEOUT]
     ++ match status r with
        | Some 0%Z =>
            Debug ("Got result: " ++ stdout r)
            :: match JSON_parse (stdout r) with
               | inl _ => []
               | inr results =>
                   trace (report JSON_stringify path_relative w
                            workingDirectory results)
               end
        | _ => []
        end)%list.
Proof.
  intros Hlints cmd.
  rewrite (handler_lints JSON_parse JSON_stringify path_relative Hlints).
  cbv zeta.
  destruct (status r) as [[|p|p]|]; try reflexivity.
  destruct (JSON_parse (stdout r)); reflexivity.
Qed.

Lemma flat_map_filesWithErrors {B} (g : File -> list B)
  (results : list File) :
  (forall f, messages f = [] -> g f = []) ->
  flat_map g (filesWithErrors results) = flat_map g results.
Proof.
  intros Hg. unfold filesWithErrors.
  induction results as [|f fs IH]; [reflexivity|].
  cbn [filter flat_map].
  destruct (messages f) as [|m ms] eqn:E; cbn.
  - rewrite (Hg f E). exact IH.
  - now rewrite IH.
Qed.

Lemma map_flat_map {A B C} (h : B -> C) (g : A -> list B) (l : list A) :
  map h (flat_map g l) = flat_map (fun a => map h (g a)) l.
Proof.
  induction l as [|a l IH]; [reflexivity|].
  cbn [flat_map]. now rewrite map_app, IH.
Qed.

Lemma emitted_only_warnings {A} (f : Event -> bool) (m : A -> string)
  (p : A -> Properties.t) (xs : list A) :
  (forall msg properties, f (Warning msg properties) = true) ->
  forallb f (map (fun a => Warning (m a) (p a)) xs) = true.
Proof.
  intros Hf. induction xs as [|x xs IH]; [reflexivity|].
  cbn. now rewrite Hf, IH.
Qed.

(** ** Stopping early *)

(** X1: without the required input [prefix] the handler is rejected with
    the error of [core.getInput] before it does anything else: nothing is
    emitted, not even a debug line. *)
Theorem missing_prefix_aborts (e : Thrown) :
  getInput w "prefix" true = inl e ->
  run = ([], inl e).
Proof.
  intros H. unfold handler. now rewrite H.
Qed.

(** X2: when the pull request cannot be fetched, the handler is rejected
    with the error of the request; the only thing emitted is the first debug
    line, and no child process is started. *)
Theorem pull_request_failure_aborts (prefix input : string) (e : Thrown) :
  getInput w "prefix" true = inr prefix ->
  getInput w "workingDirectory" false = inr input ->
  pulls_get w (fst (fst (pullRequest w))) (snd (fst (pullRequest w)))
    (snd (pullRequest w)) = inl e ->
  run
  = ([Debug ("Started for PR " ++ Js.numberToString (snd (pullRequest w))
               ++ " in repo " ++ snd (fst (pullRequest w)) ++ " from "
               ++ fst (fst (pullRequest w)) ++ ".")],
     inl e).
Proof.
  intros Hprefix Hwd Hpull. unfold handler. rewrite Hprefix, Hwd.
  destruct (pullRequest w) as [[owner repo] number]. cbn [fst snd] in *.
  cbn [lift bind Js.nullish app]. now rewrite Hpull.
Qed.

(** X3: a run whose pull request asks for a skip resolves normally after
    its three debug lines, whatever the linter would answer and whether or
    not a summary destination is configured. *)
Theorem skip_resolves (prefix input : string) (data : PullData) :
  getInput w "prefix" true = inr prefix ->
  getInput w "workingDirectory" false = inr input ->
  skips w data ->
  run = ((started data ++ [Debug "Skipping PR."])%list, inr tt).
Proof.
  intros Hprefix Hwd [Hpull Hskip]. unfold handler. rewrite Hprefix, Hwd.
  destruct (pullRequest w) as [[owner repo] number]. cbn [fst snd] in *.
  cbn [lift bind Js.nullish app].
  rewrite Hpull. cbn [emit bind app]. now rewrite Hskip.
Qed.

(** ** The child process *)

Lemma report_spawns_nothing (workingDirectory : string)
  (results : list File) :
  forallb (fun e => negb (isSpawn e))
    (trace (report JSON_stringify path_relative w workingDirectory results))
  = true.
Proof.
  rewrite report_trace. cbn [forallb isSpawn negb andb].
  rewrite !forallb_app, emitted_only_warnings by reflexivity.
  destruct (0 <? totalErrors results)%Z, (GITHUB_STEP_SUMMARY w);
    reflexivity.
Qed.

Lemma spawnless (ok : Event -> bool) (t : list Event) :
  (forall e, isSpawn e = false -> ok e = true) ->
  forallb (fun e => negb (isSpawn e)) t = true ->
  filter isSpawn t = [] /\ forallb ok t = true.
Proof.
  intros Hok. induction t as [|e t IH]; [now split|].
  cbn. intros H. apply andb_true_iff in H as [He Ht].
  apply negb_true_iff in He. rewrite He, (Hok e He).
  exact (IH Ht).
Qed.

Lemma debug_spawnless (t : list Event) :
  forallb isDebug t = true -> forallb (fun e => negb (isSpawn e)) t = true.
Proof.
  induction t as [|e t IH]; [reflexivity|].
  destruct e; cbn; try discriminate. exact IH.
Qed.

(** The events after the spawn hold no spawn. *)
Lemma after_spawn_spawnless (workingDirectory : string) (r : SpawnResult) :
  forallb (fun e => negb (isSpawn e))
    match status r with
    | Some 0%Z =>
        Debug ("Got result: " ++ stdout r)
        :: match JSON_parse (stdout r) with
           | inl _ => []
           | inr results =>
               trace (report JSON_stringify path_relative w
                        workingDirectory results)
           end
    | _ => []
    end = true.
Proof.
  destruct (status r) as [[|p|p]|]; try reflexivity.
  destruct (JSON_parse (stdout r)) as [e|results]; [reflexivity|].
  cbn [forallb isSpawn negb andb]. apply report_spawns_nothing.
Qed.

(** X4: no run starts more than one child process, and a child process
    is never started without the timeout of 600000 milliseconds. *)
Theorem spawns_once_with_timeout :
  (length (filter isSpawn (trace run)) <= 1)%nat
  /\ forallb (fun e =>
               match e with
               | Spawn _ timeout => (timeout =? 600000)%Z
               | _ => true
               end)
       (trace run) = true.
Proof.
  set (ok := fun e => match e with
                      | Spawn _ timeout => (timeout =? 600000)%Z
                      | _ => true
                      end).
  assert (Hok : forall e, isSpawn e = false -> ok e = true).
  { intros e. destruct e; cbn; congruence. }
  destruct handler_cases as [Hdebug|(prefix & wd & data & Hlints)].
  - destruct (spawnless ok _ Hok (debug_spawnless _ Hdebug)) as [-> ->].
    split; [cbn; lia|reflexivity].
  - rewrite (lints_trace Hlints). cbv zeta.
    set (r := spawnSync w _ _).
    destruct (spawnless ok _ Hok (after_spawn_spawnless wd r)) as [Hf Ha].
    cbn [app filter isDebug isSpawn forallb ok andb length].
    rewrite Hf, Ha. split; [cbn; lia|reflexivity].
Qed.

(** X5: a run that gets as far as the linter starts exactly one child
    process; its command line is built from the commit ids of the pull
    request, the [prefix] input and the [workingDirectory] input as they are
    (the input is a string, so the fallback to [.] never applies), and its
    timeout is [LINTER_TIMEOUT]. *)
Theorem lint_command_verbatim (prefix workingDirectory : string)
  (data : PullData) (r : SpawnResult) :
  lints w prefix workingDirectory data r ->
  filter isSpawn (trace run)
  = [Spawn
       ("cd ./" ++ workingDirectory ++ "/" ++ prefix
          ++ "; git diff --name-only --diff-filter=ACMR " ++ baseSha data
          ++ "..." ++ headSha data ++ " | grep -E '^" ++ prefix
          ++ "/(.*).[jt]s(x)?$'|sed 's,^" ++ prefix
          ++ "/,,'|xargs yarn -s eslint -f json")
       LINTER_TIMEOUT].
Proof.
  intros Hlints. rewrite (lints_trace Hlints). cbv zeta.
  destruct (spawnless (fun _ => true) _ (fun _ _ => eq_refl)
              (after_spawn_spawnless workingDirectory r)) as [Hf _].
  cbn [app filter isDebug isSpawn]. rewrite Hf. reflexivity.
Qed.

(** X6: the lint runner yields file results exactly when the child
    process exits with status 0 and [JSON.parse] reads what it printed; the
    file results are then the parsed report. *)
Theorem lintDiff_succeeds_iff (base head prefix workingDirectory : string)
  (results : list File) :
  let r :=
    spawnSync w (lintCommand base head prefix workingDirectory)
      LINTER_TIMEOUT in
  outcome (lintDiff JSON_parse w base head prefix workingDirectory)
  = inr results
  <-> status r = Some 0%Z /\ JSON_parse (stdout r) = inr results.
Proof.
  intros r. rewrite lintDiff_outcome. cbv zeta. fold r.
  destruct (status r) as [[|p|p]|]; split;
    try (intros [H _]; discriminate H); try discriminate.
  - intros H. now split.
  - now intros [_ H].
Qed.

(** ** What is reported *)

Lemma totalErrors_findings (results : list File) :
  totalErrors results = Z.of_nat (length (flat_map messages results)).
Proof.
  unfold totalErrors. rewrite fold_add.
  rewrite <- findings_of_filesWithErrors.
  induction (filesWithErrors results) as [|f fs IH]; [reflexivity|].
  cbn [map fold_right flat_map].
  rewrite length_app, Nat2Z.inj_add. lia.
Qed.

(** X7: the total that decides between failure and success is the number
    of findings in the whole report, with or without the filter on files;
    it is zero exactly when no file result has a finding. *)
Theorem total_is_number_of_findings (results : list File) :
  totalErrors results = Z.of_nat (length (flat_map messages results))
  /\ (totalErrors results = 0%Z
      <-> forall f, In f results -> messages f = []).
Proof.
  split; [apply totalErrors_findings|].
  rewrite totalErrors_findings.
  induction results as [|f fs IH].
  - split; [intros _ f []|reflexivity].
  - cbn [flat_map]. rewrite length_app, Nat2Z.inj_add. split.
    + intros H f' [<-|Hin].
      * destruct (messages f); [reflexivity|cbn [length] in H; lia].
      * apply IH; [lia|assumption].
    + intros H.
      rewrite (H f (or_introl eq_refl)). cbn [length].
      apply IH. intros f' Hin. apply H. now right.
Qed.

(** X8: for each finding of the report, in the order of the report, the
    handler emits one warning: its text is the pointer to the rule's
    documentation, its title the finding's own message, its file the path of
    the file result relative to the working directory under the current
    directory, its span that of the finding. *)
Theorem formatter_contract (prefix workingDirectory : string)
  (data : PullData) (r : SpawnResult) (results : list File) :
  lints w prefix workingDirectory data r ->
  status r = Some 0%Z ->
  JSON_parse (stdout r) = inr results ->
  warnings (trace run)
  = flat_map
      (fun f =>
         map (fun m =>
                (formatRuleMessage (ruleId m),
                 {| Properties.title := Message.message m;
                    Properties.file :=
                      path_relative (cwd w ++ "/" ++ workingDirectory)
                        (filePath f);
                    Properties.startLine := line m;
                    Properties.startColumn := column m;
                    Properties.endLine := endLine m;
                    Properties.endColumn := endColumn m |}))
             (messages f))
      results.
Proof.
  intros Hlints Hstatus Hparse.
  rewrite (run_warnings _ _ _ Hlints Hstatus Hparse).
  unfold annotations. rewrite map_flat_map.
  rewrite flat_map_filesWithErrors.
  - apply flat_map_ext. intros f. rewrite map_map. reflexivity.
  - intros f ->. reflexivity.
Qed.

Lemma report_failed (workingDirectory : string) (results : list File) :
  existsb isSetFailed
    (trace (report JSON_stringify path_relative w workingDirectory results))
  = (0 <? totalErrors results)%Z.
Proof.
  rewrite report_trace. cbn [existsb isSetFailed orb].
  rewrite past_warnings by reflexivity.
  destruct (0 <? totalErrors results)%Z, (GITHUB_STEP_SUMMARY w);
    reflexivity.
Qed.

(** X9: in every run the failure status is set exactly when at least one
    warning has been emitted. *)
Theorem failed_iff_annotated :
  existsb isSetFailed (trace run)
  = negb (Nat.eqb (length (warnings (trace run))) 0).
Proof.
  destruct handler_cases as [Hdebug|(prefix & wd & data & Hlints)].
  - destruct (debug_only _ Hdebug) as (-> & _ & _ & -> & _). reflexivity.
  - rewrite (lints_trace Hlints). cbv zeta.
    set (r := spawnSync w _ _).
    cbn [app existsb isSetFailed orb warnings].
    destruct (status r) as [[|p|p]|]; try reflexivity.
    cbn [existsb isSetFailed orb warnings].
    destruct (JSON_parse (stdout r)) as [e|results]; [reflexivity|].
    rewrite report_failed, (report_warnings JSON_stringify path_relative).
    rewrite length_map, (totalErrors_annotations path_relative w wd).
    destruct (annotations path_relative w wd results); reflexivity.
Qed.

(** X10: with a summary destination, a run whose report is read writes
    exactly one file, the summary: for a report without findings the
    positive text, otherwise the count of the findings followed by the emoji
    for that count. *)
Theorem summary_by_count (prefix workingDirectory filename : string)
  (data : PullData) (r : SpawnResult) (results : list File) :
  GITHUB_STEP_SUMMARY w = Some filename ->
  lints w prefix workingDirectory data r ->
  status r = Some 0%Z ->
  JSON_parse (stdout r) = inr results ->
  let n := Z.of_nat (length (flat_map messages results)) in
  filter isWriteFile (trace run)
  = [WriteFile filename
       (if (n =? 0)%Z then "## Your code looks awesome! :rocket:"
        else "## Found " ++ Js.numberToString n
               ++ " linter hints in the changed code. " ++ worriedEmoji n)].
Proof.
  intros Hsink Hlints Hstatus Hparse n.
  rewrite (lints_trace Hlints), Hstatus, Hparse. cbv zeta.
  rewrite report_trace, Hsink.
  cbn [app filter isWriteFile].
  rewrite !filter_app.
  assert (Hw : forall l : list Annotation.t,
             filter isWriteFile
               (map (fun a => Warning (Annotation.message a) (rest a)) l)
             = []).
  { induction l as [|a l IH]; [reflexivity|exact IH]. }
  rewrite Hw.
  pose proof (totalErrors_findings results) as Htotal.
  fold n in Htotal. rewrite Htotal.
  destruct (Z.ltb_spec 0 n) as [Hpos|Hzero], (Z.eqb_spec n 0);
    try reflexivity; lia.
Qed.

(** X11: a run whose report is read emits, after the debug lines and the
    spawn, first all warnings, then the failure status (when there are
    findings), and only then writes the summary (when there is a
    destination). *)
Theorem effects_in_order (prefix workingDirectory : string)
  (data : PullData) (r : SpawnResult) (results : list File) :
  lints w prefix workingDirectory data r ->
  status r = Some 0%Z ->
  JSON_parse (stdout r) = inr results ->
  exists quiet loud,
    trace run = (quiet ++ loud)%list
    /\ forallb (fun e => isDebug e || isSpawn e) quiet = true
    /\ loud
       = (map (fun a => Warning (fst a) (snd a)) (warnings (trace run))
          ++ (if (0 <? totalErrors results)%Z
              then [SetFailed
                      ("Found " ++ Js.numberToString (totalErrors results)
                         ++ " linter hints in the changed code.")]
              else [])
          ++ match GITHUB_STEP_SUMMARY w with
             | Some filename => [WriteFile filename (summaryOf results)]
             | None => []
             end)%list.
Proof.
  intros Hlints Hstatus Hparse.
  rewrite (run_warnings _ _ _ Hlints Hstatus Hparse).
  rewrite (lints_trace Hlints), Hstatus, Hparse. cbv zeta.
  rewrite report_trace.
  exists (started data
          ++ [Debug ("Executing: "
                       ++ lintCommand (baseSha data) (headSha data) prefix
                            workingDirectory);
              Spawn
                (lintCommand (baseSha data) (headSha data) prefix
                   workingDirectory)
                LINTER_TIMEOUT;
              Debug ("Got result: " ++ stdout r);
              Debug ("Files with errors: "
                       ++ JSON_stringify (filesWithErrors results))])%list.
  eexists. split; [|split; [reflexivity|]].
  - cbn [app]. reflexivity.
  - rewrite map_map. reflexivity.
Qed.

(** X12: with a summary destination, a run whose report is read ends as
    the write of the summary ends: findings do not reject the handler, an
    error of [fs.writeFileSync] does. *)
Theorem outcome_is_that_of_the_write (prefix workingDirectory filename : string)
  (data : PullData) (r : SpawnResult) (results : list File) :
  GITHUB_STEP_SUMMARY w = Some filename ->
  lints w prefix workingDirectory data r ->
  status r = Some 0%Z ->
  JSON_parse (stdout r) = inr results ->
  outcome run = writeFileSync w filename (summaryOf results).
Proof.
  intros Hsink Hlints Hstatus Hparse.
  rewrite (handler_lints JSON_parse JSON_stringify path_relative Hlints).
  rewrite Hstatus, Hparse. cbv zeta. cbn [outcome snd].
  fold (outcome (report JSON_stringify path_relative w workingDirectory
                   results)).
  now rewrite report_outcome, Hsink.
Qed.

End Further.

(** * Further properties of the rule documentation *)

Lemma before_slash_free (c : ascii) (s : string) :
  Spec.count c s = O -> Spec.before c s = s /\ Spec.after c s = None.
Proof.
  induction s as [|a s IH]; [now split|].
  cbn [Spec.count Spec.before Spec.after].
  destruct (Ascii.eqb a c); [discriminate|].
  intros H. destruct (IH H) as [-> ->]. now split.
Qed.

Lemma cut_at_first (c : ascii) (s t : string) :
  Spec.count c s = O ->
  Spec.before c (s ++ String c t) = s
  /\ Spec.after c (s ++ String c t) = Some t.
Proof.
  induction s as [|a s IH]; cbn [Spec.count String.append Spec.before Spec.after].
  - rewrite Ascii.eqb_refl. now split.
  - destruct (Ascii.eqb a c); [discriminate|].
    intros H. destruct (IH H) as [-> ->]. now split.
Qed.

(** X13: a rule has no documentation URL exactly when it has a [/] and
    the text before its first [/] is none of [jest], [testing-library] and
    [@typescript-eslint]; and the message of an annotation is the generic
    one exactly for the rules without URL. *)
Theorem no_url_iff_foreign_namespace (rule : string) :
  (ruleUrl rule = None
   <-> exists remainder,
       Spec.after "/" rule = Some remainder
       /\ Spec.before "/" rule <> "jest"
       /\ Spec.before "/" rule <> "testing-library"
       /\ Spec.before "/" rule <> "@typescript-eslint")
  /\ (formatRuleMessage rule = "No further rule information available."
      <-> ruleUrl rule = None).
Proof.
  split.
  - rewrite ruleUrl_urlBySegment. unfold Spec.urlBySegment, Spec.docs.
    destruct (Spec.after "/" rule) as [remainder|].
    2:{ split; [discriminate|]. intros (x & H & _). discriminate H. }
    destruct (String.eqb_spec (Spec.before "/" rule) "jest") as [E1|N1].
    { split; [discriminate|]. intros (x & _ & H & _). contradiction. }
    destruct (String.eqb_spec (Spec.before "/" rule) "testing-library")
      as [E2|N2].
    { split; [discriminate|]. intros (x & _ & _ & H & _). contradiction. }
    destruct (String.eqb_spec (Spec.before "/" rule) "@typescript-eslint")
      as [E3|N3].
    { split; [discriminate|]. intros (x & _ & _ & _ & H). contradiction. }
    split; [|reflexivity]. intros _. now exists remainder.
  - unfold formatRuleMessage.
    destruct (ruleUrl rule) as [url|] eqn:E.
    + rewrite (url_truthy _ E). split; discriminate.
    + split; reflexivity.
Qed.

(** X14: what follows a second [/] in a rule has no influence on its URL:
    only the text before the first [/] and the text up to the next [/] are
    looked at. *)
Theorem ruleUrl_ignores_tail (namespace id tail : string) :
  Spec.count "/" namespace = O ->
  Spec.count "/" id = O ->
  ruleUrl (namespace ++ "/" ++ id ++ "/" ++ tail)
  = ruleUrl (namespace ++ "/" ++ id).
Proof.
  intros Hns Hid. rewrite !ruleUrl_urlBySegment. unfold Spec.urlBySegment.
  change (namespace ++ "/" ++ id ++ "/" ++ tail)
    with (namespace ++ String "/" (id ++ String "/" tail)).
  change (namespace ++ "/" ++ id) with (namespace ++ String "/" id).
  destruct (cut_at_first "/" namespace (id ++ String "/" tail) Hns)
    as [-> ->].
  destruct (cut_at_first "/" namespace id Hns) as [-> ->].
  destruct (cut_at_first "/" id tail Hid) as [-> _].
  destruct (before_slash_free "/" id Hid) as [-> _].
  reflexivity.
Qed.

(** X15: in the first revision the title carried a link: its target is
    the URL that [ruleUrl] gives, its label the rule (without [/]) or the
    text between the first [/] and the next; a rule without URL was named
    as it is. *)
Theorem formatRuleName_links_ruleUrl (rule : string) :
  Earlier.formatRuleName rule
  = match ruleUrl rule with
    | Some url =>
        "[" ++ match Spec.after "/" rule with
               | None => rule
               | Some remainder => Spec.before "/" remainder
               end
          ++ "](" ++ url ++ ")"
    | None => rule
    end.
Proof.
  unfold Earlier.formatRuleName, ruleUrl, Earlier.makeRuleNameWithUrl.
  rewrite split_before_after.
  destruct (Spec.after "/" rule) as [remainder|]; [|reflexivity].
  rewrite (split_before_after remainder).
  cbn [length Nat.eqb nth_error Js.interpolate].
  destruct (Spec.before "/" rule =? "jest"); [reflexivity|].
  destruct (Spec.before "/" rule =? "testing-library"); [reflexivity|].
  destruct (Spec.before "/" rule =? "@typescript-eslint"); reflexivity.
Qed.

(** * Further properties of the pipeline *)

Lemma drop_length_append (a b : string) :
  Shell.drop (String.length a) (a ++ b) = b.
Proof. induction a as [|c a IH]; [now destruct b|exact IH]. Qed.

Lemma length_append (a b : string) :
  String.length (a ++ b) = (String.length a + String.length b)%nat.
Proof. induction a as [|c a IH]; [reflexivity|]. cbn. now rewrite IH. Qed.

Lemma sed_strips (prefix rest : string) :
  Shell.sed prefix (prefix ++ "/" ++ rest) = rest.
Proof.
  unfold Shell.sed. rewrite <- ShellFacts.append_assoc.
  rewrite startsWith_app.
  replace (String.length prefix + 1)%nat with (String.length (prefix ++ "/")).
  - apply drop_length_append.
  - rewrite length_append. reflexivity.
Qed.

(** The lines that reach [xargs] come from the lines that consist of the
    prefix, a [/], any text, one more character and [js], [ts], [jsx] or
    [tsx], by the removal of the prefix and the [/]. *)
Lemma lines_selected (prefix : string) (changed : list string)
  (p : string) :
  In p (Shell.lintedFiles prefix changed)
  <-> exists stem c ending,
      In (prefix ++ "/" ++ stem ++ String c ending) changed
      /\ In ending ["js"; "ts"; "jsx"; "tsx"]
      /\ p = stem ++ String c ending.
Proof.
  unfold Shell.lintedFiles, Shell.grep. rewrite in_map_iff. split.
  - intros (path & <- & Hin). apply filter_In in Hin as [Hin Hm].
    apply ShellFacts.grep_selects in Hm as (stem & c & ending & -> & He).
    exists stem, c, ending. repeat split; try assumption.
    apply sed_strips.
  - intros (stem & c & ending & Hin & He & ->).
    exists (prefix ++ "/" ++ stem ++ String c ending). split.
    + apply sed_strips.
    + apply filter_In. split; [assumption|].
      apply ShellFacts.grep_selects. now exists stem, c, ending.
Qed.

Lemma tokens_unquoted (line acc rest : string) :
  Shell.unquoted line = true ->
  Shell.tokens (line ++ String "010" rest) None (Some acc)
  = option_map (cons (acc ++ line)) (Shell.tokens rest None None).
Proof.
  revert acc. induction line as [|c line IH]; intros acc Hline.
  - cbn. rewrite ShellFacts.append_nil_r.
    destruct (Shell.tokens rest None None); reflexivity.
  - cbn [Shell.unquoted] in Hline.
    apply andb_true_iff in Hline as [Hc Hline].
    apply negb_true_iff in Hc.
    apply orb_false_iff in Hc as [Hc Hb].
    apply orb_false_iff in Hc as [Hs Hq].
    cbn [String.append Shell.tokens]. rewrite Hs, Hq, Hb.
    unfold Shell.push. cbn [Shell.content].
    rewrite (IH (acc ++ String c EmptyString) Hline),
      ShellFacts.append_assoc.
    reflexivity.
Qed.

Lemma tokens_unlines (lines : list string) :
  Forall (fun line => Shell.unquoted line = true /\ line <> EmptyString)
    lines ->
  Shell.tokens (Shell.unlines lines) None None = Some lines.
Proof.
  induction 1 as [|line lines [Hline Hne] _ IH]; [reflexivity|].
  destruct line as [|c line]; [contradiction|].
  cbn [Shell.unquoted] in Hline.
  apply andb_true_iff in Hline as [Hc Hline].
  apply negb_true_iff in Hc.
  apply orb_false_iff in Hc as [Hc Hb].
  apply orb_false_iff in Hc as [Hs Hq].
  cbn [Shell.unlines String.append Shell.tokens]. rewrite Hs, Hq, Hb.
  unfold Shell.push. cbn [Shell.content String.append].
  rewrite (@tokens_unquoted line (String c EmptyString)
             (Shell.unlines lines) Hline), IH.
  reflexivity.
Qed.

Lemma unquoted_drop (n : nat) (line : string) :
  Shell.unquoted line = true -> Shell.unquoted (Shell.drop n line) = true.
Proof.
  revert line. induction n as [|n IH]; intros line H; [exact H|].
  destruct line as [|c line]; [reflexivity|].
  cbn [Shell.unquoted] in H. apply andb_true_iff in H as [_ H].
  cbn [Shell.drop]. now apply IH.
Qed.

(** X16: when the prefix is plain (letters, digits, [-], [_], [/]) and no
    line that [git diff] prints holds white space, a quote or a backslash,
    [xargs] hands the linter, each as one argument and in the order of the
    lines, exactly the lines that consist of the prefix, a [/], any text,
    one more character and [js], [ts], [jsx] or [tsx], without the prefix
    and the [/]. *)
Theorem linter_arguments_exact (prefix : string) (changed : list string) :
  Shell.plain prefix = true ->
  Forall (fun line => Shell.unquoted line = true) changed ->
  Shell.arguments prefix changed = Some (Shell.lintedFiles prefix changed)
  /\ forall p,
      In p (Shell.lintedFiles prefix changed)
      <-> exists stem c ending,
          In (prefix ++ "/" ++ stem ++ String c ending) changed
          /\ In ending ["js"; "ts"; "jsx"; "tsx"]
          /\ p = stem ++ String c ending.
Proof.
  intros _ Hchanged. split; [|apply lines_selected].
  unfold Shell.arguments. apply tokens_unlines.
  apply Forall_forall. intros p Hp.
  pose proof (proj1 (lines_selected prefix changed p) Hp)
    as (stem & c & ending & Hin & _ & ->).
  split.
  - rewrite Forall_forall in Hchanged. specialize (Hchanged _ Hin).
    rewrite <- (sed_strips prefix (stem ++ String c ending)).
    unfold Shell.sed.
    destruct (Js.startsWith _ _); [now apply unquoted_drop|assumption].
  - destruct stem; discriminate.
Qed.

(** * Further properties of the earlier revisions *)

Section EarlierFurther.

Variable JSON_parse : string -> Result (list File).
Variable path_relative : string -> string -> string.
Variable w : World.
Variable childExec : string -> string.

Local Abbreviation first :=
  (Earlier.handler JSON_parse path_relative w childExec).
Local Abbreviation second :=
  (Middle.handler JSON_parse path_relative w childExec).

(** The request for the pull request, as the handlers make it. *)
Local Abbreviation fetched :=
  (pulls_get w (fst (fst (pullRequest w))) (snd (fst (pullRequest w)))
     (snd (pullRequest w))).

(** A run of the first revision, case by case. *)
Lemma earlier_run :
  first
  = match getInput w "prefix" true with
    | inl e => ([], inl e)
    | inr prefix =>
        match fetched with
        | inl e => ([], inl e)
        | inr data =>
            if shouldBeSkipped (body data) then ([], inr tt)
            else
              let cmd :=
                Earlier.lintCommand (baseSha data) (headSha data) prefix in
              match JSON_parse (childExec cmd) with
              | inl e => ([Spawn cmd 0], inl e)
              | inr results =>
                  ((Spawn cmd 0
                    :: map (fun a => Warning (Annotation.message a) (rest a))
                         (Earlier.annotations path_relative w results)
                    ++ (if (0 <? totalErrors results)%Z
                        then [SetFailed
                                ("Found "
                                   ++ Js.numberToString (totalErrors results)
                                   ++ " linter hints in the changed code.")]
                        else []))%list,
                   inr tt)
              end
        end
    end.
Proof.
  unfold Earlier.handler.
  destruct (getInput w "prefix" true) as [e|prefix]; [reflexivity|].
  destruct (pullRequest w) as [[owner repo] number]. cbn [fst snd].
  cbn [lift bind app].
  destruct (pulls_get w owner repo number) as [e|data]; [reflexivity|].
  destruct (shouldBeSkipped (body data)); [reflexivity|].
  unfold Earlier.lintDiff, Earlier.exec. cbv zeta.
  cbn [emit ret lift bind app].
  destruct (JSON_parse _) as [e|results]; [reflexivity|].
  assert (Hlen : totalErrors results
                 = Z.of_nat
                     (length (Earlier.annotations path_relative w results))).
  { unfold totalErrors, Earlier.annotations. rewrite fold_add.
    induction (filesWithErrors results) as [|f fs IH]; [reflexivity|].
    cbn [map fold_right flat_map].
    rewrite length_app, length_map, Nat2Z.inj_add. lia. }
  destruct (Z.ltb_spec 0 (totalErrors results)) as [Hpos|Hzero].
  - rewrite forEach_emit. reflexivity.
  - rewrite Hlen in Hzero.
    destruct (Earlier.annotations _ _ _) as [|a l]; [reflexivity|].
    cbn [length] in Hzero. lia.
Qed.

(** A run of the second revision, case by case. *)
Lemma middle_run :
  second
  = match getInput w "prefix" true with
    | inl e => ([], inl e)
    | inr prefix =>
        match fetched with
        | inl e => ([], inl e)
        | inr data =>
            if shouldBeSkipped (body data) then ([], inr tt)
            else
              let cmd :=
                Earlier.lintCommand (baseSha data) (headSha data) prefix in
              match JSON_parse (childExec cmd) with
              | inl e => ([Spawn cmd 0], inl e)
              | inr results =>
                  ((Spawn cmd 0
                    :: map (fun a => Warning (Annotation.message a) (rest a))
                         (Middle.annotations path_relative w results)
                    ++ (if (0 <? totalErrors results)%Z
                        then [SetFailed
                                ("Found "
                                   ++ Js.numberToString (totalErrors results)
                                   ++ " linter hints in the changed code.")]
                        else []))%list,
                   inr tt)
              end
        end
    end.
Proof.
  unfold Middle.handler.
  destruct (getInput w "prefix" true) as [e|prefix]; [reflexivity|].
  destruct (pullRequest w) as [[owner repo] number]. cbn [fst snd].
  cbn [lift bind app].
  destruct (pulls_get w owner repo number) as [e|data]; [reflexivity|].
  destruct (shouldBeSkipped (body data)); [reflexivity|].
  unfold Earlier.lintDiff, Earlier.exec. cbv zeta.
  cbn [emit ret lift bind app].
  destruct (JSON_parse _) as [e|results]; [reflexivity|].
  assert (Hlen : totalErrors results
                 = Z.of_nat
                     (length (Middle.annotations path_relative w results))).
  { unfold totalErrors, Middle.annotations. rewrite fold_add.
    induction (filesWithErrors results) as [|f fs IH]; [reflexivity|].
    cbn [map fold_right flat_map].
    rewrite length_app, length_map, Nat2Z.inj_add. lia. }
  destruct (Z.ltb_spec 0 (totalErrors results)) as [Hpos|Hzero].
  - rewrite forEach_emit. reflexivity.
  - rewrite Hlen in Hzero.
    destruct (Middle.annotations _ _ _) as [|a l]; [reflexivity|].
    cbn [length] in Hzero. lia.
Qed.

Lemma only_warnings_and_status {A} (xs : list A) (m : A -> string)
  (p : A -> Properties.t) (tail : list Event) :
  forallb (fun e => isSpawn e || isWarning e || isSetFailed e) tail = true ->
  filter isSpawn tail = [] ->
  forallb (fun e => isSpawn e || isWarning e || isSetFailed e)
    (map (fun a => Warning (m a) (p a)) xs ++ tail) = true
  /\ filter isSpawn (map (fun a => Warning (m a) (p a)) xs ++ tail) = []
  /\ warnings (map (fun a => Warning (m a) (p a)) xs ++ tail)
     = (map (fun a => (m a, p a)) xs ++ warnings tail)%list
  /\ existsb isSetFailed (map (fun a => Warning (m a) (p a)) xs ++ tail)
     = existsb isSetFailed tail.
Proof.
  intros Ht Hs. induction xs as [|x xs IH]; [now repeat split|].
  destruct IH as (IH1 & IH2 & IH3 & IH4). cbn.
  now rewrite IH1, IH2, IH3, IH4.
Qed.

(** The observations shared by the runs of both earlier revisions. *)
Lemma earlier_shape {A} (run : Action unit) (cmd : string) (xs : list A)
  (m : A -> string) (p : A -> Properties.t) (total : Z) (msg : string) :
  total = Z.of_nat (length xs) ->
  trace run
  = (Spawn cmd 0
     :: map (fun a => Warning (m a) (p a)) xs
     ++ (if (0 <? total)%Z then [SetFailed msg] else []))%list ->
  forallb (fun e => isSpawn e || isWarning e || isSetFailed e) (trace run)
  = true
  /\ (length (filter isSpawn (trace run)) <= 1)%nat
  /\ forallb (fun e => match e with
                       | Spawn _ timeout => (timeout =? 0)%Z
                       | _ => true
                       end) (trace run) = true
  /\ existsb isSetFailed (trace run)
     = negb (Nat.eqb (length (warnings (trace run))) 0).
Proof.
  intros Htotal ->.
  assert (Htail : forallb (fun e => isSpawn e || isWarning e || isSetFailed e)
                    (if (0 <? total)%Z then [SetFailed msg] else []) = true
                  /\ filter isSpawn
                       (if (0 <? total)%Z then [SetFailed msg] else []) = []).
  { destruct (0 <? total)%Z; now split. }
  destruct Htail as [Ht Hs].
  destruct (only_warnings_and_status xs m p _ Ht Hs) as (H1 & H2 & H3 & H4).
  cbn [forallb filter isSpawn isWarning isSetFailed orb andb existsb
         warnings length].
  rewrite H1, H2, H3, H4. repeat split; try (cbn; lia).
  - assert (Hall : forall l : list Event,
               filter isSpawn l = [] ->
               forallb (fun e => match e with
                                 | Spawn _ timeout => (timeout =? 0)%Z
                                 | _ => true
                                 end) l = true).
    { induction l as [|e l IH]; [reflexivity|].
      destruct e; cbn; try discriminate; exact IH. }
    now apply Hall.
  - rewrite length_app, length_map.
    destruct (Z.ltb_spec 0 total) as [Hpos|Hzero]; destruct xs;
      cbn [length] in *; try reflexivity; lia.
Qed.

(** X17: the first revision emitted, for each finding of the report in
    order, one warning whose text is the finding's message, whose title is
    the rule (linked when it has a URL), a colon and the message, whose file
    is the path of the file result relative to the current directory, and
    whose span is that of the finding. *)
Theorem earlier_formatter_contract (prefix : string) (data : PullData)
  (results : list File) :
  getInput w "prefix" true = inr prefix ->
  fetched = inr data ->
  shouldBeSkipped (body data) = false ->
  JSON_parse
    (childExec (Earlier.lintCommand (baseSha data) (headSha data) prefix))
  = inr results ->
  warnings (trace first)
  = flat_map
      (fun f =>
         map (fun m =>
                (Message.message m,
                 {| Properties.title :=
                      Earlier.formatRuleName (ruleId m) ++ ": "
                        ++ Message.message m;
                    Properties.file := path_relative (cwd w) (filePath f);
                    Properties.startLine := line m;
                    Properties.startColumn := column m;
                    Properties.endLine := endLine m;
                    Properties.endColumn := endColumn m |}))
             (messages f))
      results.
Proof.
  intros Hprefix Hpull Hskip Hparse.
  rewrite (earlier_warnings JSON_parse path_relative w childExec
             Hprefix Hpull Hskip Hparse).
  unfold Earlier.annotations. rewrite map_flat_map.
  rewrite flat_map_filesWithErrors.
  - apply flat_map_ext. intros f. rewrite map_map. reflexivity.
  - intros f ->. reflexivity.
Qed.

(** X18: neither of the two earlier revisions ever wrote a summary or a
    debug line; each started at most one child process, without a timeout,
    and set the failure status exactly when it had emitted a warning. *)
Theorem earlier_revisions_effects :
  (forallb (fun e => isSpawn e || isWarning e || isSetFailed e)
     (trace first) = true
   /\ (length (filter isSpawn (trace first)) <= 1)%nat
   /\ forallb (fun e => match e with
                        | Spawn _ timeout => (timeout =? 0)%Z
                        | _ => true
                        end) (trace first) = true
   /\ existsb isSetFailed (trace first)
      = negb (Nat.eqb (length (warnings (trace first))) 0))
  /\ (forallb (fun e => isSpawn e || isWarning e || isSetFailed e)
        (trace second) = true
      /\ (length (filter isSpawn (trace second)) <= 1)%nat
      /\ forallb (fun e => match e with
                           | Spawn _ timeout => (timeout =? 0)%Z
                           | _ => true
                           end) (trace second) = true
      /\ existsb isSetFailed (trace second)
         = negb (Nat.eqb (length (warnings (trace second))) 0)).
Proof.
  split.
  - pose proof earlier_run as Hrun.
    destruct (getInput w "prefix" true) as [e|prefix];
      [rewrite Hrun; cbn; repeat split; lia|].
    destruct fetched as [e|data]; [rewrite Hrun; cbn; repeat split; lia|].
    destruct (shouldBeSkipped (body data));
      [rewrite Hrun; cbn; repeat split; lia|].
    cbv zeta in Hrun.
    destruct (JSON_parse _) as [e|results];
      [rewrite Hrun; cbn; repeat split; lia|].
    eapply earlier_shape; [|rewrite Hrun; reflexivity].
    unfold totalErrors, Earlier.annotations. rewrite fold_add.
    induction (filesWithErrors results) as [|f fs IH]; [reflexivity|].
    cbn [map fold_right flat_map].
    rewrite length_app, length_map, Nat2Z.inj_add. lia.
  - pose proof middle_run as Hrun.
    destruct (getInput w "prefix" true) as [e|prefix];
      [rewrite Hrun; cbn; repeat split; lia|].
    destruct fetched as [e|data]; [rewrite Hrun; cbn; repeat split; lia|].
    destruct (shouldBeSkipped (body data));
      [rewrite Hrun; cbn; repeat split; lia|].
    cbv zeta in Hrun.
    destruct (JSON_parse _) as [e|results];
      [rewrite Hrun; cbn; repeat split; lia|].
    eapply earlier_shape; [|rewrite Hrun; reflexivity].
    unfold totalErrors, Middle.annotations. rewrite fold_add.
    induction (filesWithErrors results) as [|f fs IH]; [reflexivity|].
    cbn [map fold_right flat_map].
    rewrite length_app, length_map, Nat2Z.inj_add. lia.
Qed.

(** X19: once the first revision lints, only the parser can reject it:
    whatever the child printed is parsed, whether or not the child failed,
    and a report with findings makes the handler resolve like one
    without. *)
Theorem earlier_outcome (prefix : string) (data : PullData) :
  getInput w "prefix" true = inr prefix ->
  fetched = inr data ->
  shouldBeSkipped (body data) = false ->
  outcome first
  = match JSON_parse
            (childExec
               (Earlier.lintCommand (baseSha data) (headSha data) prefix))
    with
    | inl e => inl e
    | inr _ => inr tt
    end.
Proof.
  intros Hprefix Hpull Hskip.
  rewrite earlier_run, Hprefix, Hpull, Hskip. cbv zeta.
  destruct (JSON_parse _); reflexivity.
Qed.

(** X20: the second revision emitted, for each finding of the report in
    order, one warning with the texts of the latest revision (the pointer to
    the rule's documentation as text, the finding's message as title) and
    the span of the finding; its file is the path of the file result
    relative to the current directory. *)
Theorem middle_formatter_contract (prefix : string) (data : PullData)
  (results : list File) :
  getInput w "prefix" true = inr prefix ->
  fetched = inr data ->
  shouldBeSkipped (body data) = false ->
  JSON_parse
    (childExec (Earlier.lintCommand (baseSha data) (headSha data) prefix))
  = inr results ->
  warnings (trace second)
  = flat_map
      (fun f =>
         map (fun m =>
                (formatRuleMessage (ruleId m),
                 {| Properties.title := Message.message m;
                    Properties.file := path_relative (cwd w) (filePath f);
                    Properties.startLine := line m;
                    Properties.startColumn := column m;
                    Properties.endLine := endLine m;
                    Properties.endColumn := endColumn m |}))
             (messages f))
      results.
Proof.
  intros Hprefix Hpull Hskip Hparse.
  rewrite middle_run, Hprefix, Hpull, Hskip. cbv zeta. rewrite Hparse.
  cbn [trace fst warnings].
  assert (Htail : warnings
                    (if (0 <? totalErrors results)%Z
                     then [SetFailed
                             ("Found "
                                ++ Js.numberToString (totalErrors results)
                                ++ " linter hints in the changed code.")]
                     else []) = []).
  { destruct (0 <? totalErrors results)%Z; reflexivity. }
  rewrite warnings_app, warnings_emitted, Htail, app_nil_r.
  unfold Middle.annotations. rewrite map_flat_map.
  rewrite flat_map_filesWithErrors.
  - apply flat_map_ext. intros f. rewrite map_map. reflexivity.
  - intros f ->. reflexivity.
Qed.

End EarlierFurther.

(** * What a positive summary means *)

Section Positive.

Variable JSON_parse : string -> Result (list File).
Variable JSON_stringify : list File -> string.
Variable path_relative : string -> string -> string.
Variable w : World.

Local Abbreviation run := (handler JSON_parse JSON_stringify path_relative w).

Lemma report_summaries (workingDirectory : string) (results : list File) :
  summaries
    (trace (report JSON_stringify path_relative w workingDirectory results))
  = match GITHUB_STEP_SUMMARY w with
    | Some _ =>
        [if (0 <? totalErrors results)%Z
         then "## Found " ++ Js.numberToString (totalErrors results)
                ++ " linter hints in the changed code. "
                ++ worriedEmoji (totalErrors results)
         else "## Your code looks awesome! :rocket:"]
    | None => []
    end.
Proof.
  rewrite report_trace. cbn [summaries].
  rewrite summaries_past_warnings.
  destruct (0 <? totalErrors results)%Z, (GITHUB_STEP_SUMMARY w);
    reflexivity.
Qed.

(** X21: in no run is the positive summary written after a warning has
    been emitted or the failure status set. *)
Theorem positive_summary_means_clean :
  In "## Your code looks awesome! :rocket:" (summaries (trace run)) ->
  warnings (trace run) = [] /\ existsb isSetFailed (trace run) = false.
Proof.
  destruct (handler_cases JSON_parse JSON_stringify path_relative w)
    as [Hdebug|(prefix & wd & data & Hlints)].
  - destruct (debug_only _ Hdebug) as (Hw & Hs & _ & Hf & _).
    now split.
  - rewrite (lints_trace JSON_parse JSON_stringify path_relative Hlints).
    cbv zeta. set (r := spawnSync w _ _).
    cbn [app summaries warnings existsb isSetFailed orb].
    destruct (status r) as [[|p|p]|]; try (intros []).
    cbn [summaries warnings existsb isSetFailed orb].
    destruct (JSON_parse (stdout r)) as [e|results]; [intros []|].
    rewrite report_summaries, report_failed,
      (report_warnings JSON_stringify path_relative).
    destruct (GITHUB_STEP_SUMMARY w) as [filename|]; [|intros []].
    destruct (Z.ltb_spec 0 (totalErrors results)) as [Hpos|Hzero].
    + intros [H|[]]. discriminate H.
    + intros _.
      rewrite (totalErrors_annotations path_relative w wd) in Hzero.
      destruct (annotations path_relative w wd results) as [|a l];
        [now split|cbn [length] in Hzero; lia].
Qed.

End Positive.

(** * The further properties on concrete runs *)

Lemma missing_prefix_aborts_witness :
  getInput Example.unprefixed "prefix" true
  = inl (JsError "Input required and not supplied: prefix")
  /\ Example.run Example.unprefixed
     = ([], inl (JsError "Input required and not supplied: prefix")).
Proof.
  split; [reflexivity|].
  apply (@missing_prefix_aborts Json.parse (Json.stringify 2) Path.relative
           Example.unprefixed).
  reflexivity.
Defined.

Lemma pull_request_failure_aborts_witness :
  pulls_get Example.unreachable "Graylog2" "graylog2-server" 17%Z
  = inl (JsError "HttpError: Not Found")
  /\ outcome (Example.run Example.unreachable)
     = inl (JsError "HttpError: Not Found")
  /\ length (trace (Example.run Example.unreachable)) = 1%nat.
Proof.
  split; [reflexivity|].
  pose proof (@pull_request_failure_aborts Json.parse (Json.stringify 2)
                Path.relative Example.unreachable "pkg" EmptyString
                (JsError "HttpError: Not Found") eq_refl eq_refl eq_refl)
    as H.
  unfold Example.run. rewrite H. split; reflexivity.
Defined.

Lemma skip_resolves_witness :
  skips Example.skipped
    (Example.pull (Some "please review [skip review] thanks"))
  /\ GITHUB_STEP_SUMMARY Example.skipped = None
  /\ outcome (Example.run Example.skipped) = inr tt.
Proof.
  split; [split; reflexivity|split; [reflexivity|]].
  pose proof (@skip_resolves Json.parse (Json.stringify 2) Path.relative
                Example.skipped "pkg" EmptyString
                (Example.pull (Some "please review [skip review] thanks"))
                eq_refl eq_refl (conj eq_refl eq_refl)) as H.
  unfold Example.run. rewrite H. reflexivity.
Defined.

Lemma lint_command_verbatim_witness :
  lints Example.reviewed "pkg" EmptyString (Example.pull (Some "fix things"))
    (Example.answer Example.eslint Example.changed)
  /\ filter isSpawn (trace (Example.run Example.reviewed))
     = [Spawn
          "cd .//pkg; git diff --name-only --diff-filter=ACMR A...B | grep -E '^pkg/(.*).[jt]s(x)?$'|sed 's,^pkg/,,'|xargs yarn -s eslint -f json"
          600000].
Proof.
  split; [repeat split|].
  refine (eq_trans
            (@lint_command_verbatim Json.parse (Json.stringify 2)
               Path.relative Example.reviewed "pkg" EmptyString
               (Example.pull (Some "fix things"))
               (Example.answer Example.eslint Example.changed) _) _).
  - repeat split.
  - reflexivity.
Defined.

Lemma formatter_contract_witness :
  lints Example.reviewed "pkg" EmptyString (Example.pull (Some "fix things"))
    (Example.answer Example.eslint Example.changed)
  /\ map (fun a => (fst a, Properties.file (snd a)))
       (warnings (trace (Example.run Example.reviewed)))
     = [("See https://eslint.org/docs/rules/no-unused-vars for details.",
         "pkg/a.ts");
        ("See https://github.com/jest-community/eslint-plugin-jest/blob/main/docs/rules/no-focused-tests.md for details.",
         "pkg/c.test.tsx");
        ("See https://eslint.org/docs/rules/no-unused-vars for details.",
         "pkg/c.test.tsx")].
Proof.
  split; [repeat split|].
  unfold Example.run.
  rewrite (@formatter_contract Json.parse (Json.stringify 2) Path.relative
             Example.reviewed "pkg" EmptyString
             (Example.pull (Some "fix things"))
             (Example.answer Example.eslint Example.changed)
             Example.results).
  - vm_compute. reflexivity.
  - repeat split.
  - reflexivity.
  - vm_compute. reflexivity.
Defined.

Lemma summary_by_count_witness :
  GITHUB_STEP_SUMMARY Example.reviewed = Some "/tmp/summary.md"
  /\ filter isWriteFile (trace (Example.run Example.reviewed))
     = [WriteFile "/tmp/summary.md"
          "## Found 3 linter hints in the changed code. :worried:"].
Proof.
  split; [reflexivity|].
  refine (eq_trans
            (@summary_by_count Json.parse (Json.stringify 2) Path.relative
               Example.reviewed "pkg" EmptyString "/tmp/summary.md"
               (Example.pull (Some "fix things"))
               (Example.answer Example.eslint Example.changed)
               Example.results _ _ _ _) _).
  - reflexivity.
  - repeat split.
  - reflexivity.
  - vm_compute. reflexivity.
  - reflexivity.
Defined.

Lemma effects_in_order_witness :
  lints Example.reviewed "pkg" EmptyString (Example.pull (Some "fix things"))
    (Example.answer Example.eslint Example.changed)
  /\ exists quiet loud,
      trace (Example.run Example.reviewed) = (quiet ++ loud)%list
      /\ forallb (fun e => isDebug e || isSpawn e) quiet = true
      /\ map isWarning loud = [true; true; true; false; false]
      /\ map isSetFailed loud = [false; false; false; true; false]
      /\ map isWriteFile loud = [false; false; false; false; true].
Proof.
  split; [repeat split|].
  destruct (@effects_in_order Json.parse (Json.stringify 2) Path.relative
              Example.reviewed "pkg" EmptyString
              (Example.pull (Some "fix things"))
              (Example.answer Example.eslint Example.changed)
              Example.results)
    as (quiet & loud & Htrace & Hquiet & Hloud).
  - repeat split.
  - reflexivity.
  - vm_compute. reflexivity.
  - exists quiet, loud. split; [exact Htrace|split; [exact Hquiet|]].
    rewrite Hloud. vm_compute. repeat split.
Defined.

Lemma outcome_is_that_of_the_write_witness :
  GITHUB_STEP_SUMMARY Example.readOnly = Some "/proc/summary.md"
  /\ outcome (Example.run Example.readOnly)
     = inl (JsError "EACCES: permission denied").
Proof.
  split; [reflexivity|].
  refine (eq_trans
            (@outcome_is_that_of_the_write Json.parse (Json.stringify 2)
               Path.relative Example.readOnly "pkg" EmptyString
               "/proc/summary.md" (Example.pull None)
               (Example.answer Example.eslint Example.changed)
               Example.results _ _ _ _) _).
  - reflexivity.
  - repeat split.
  - reflexivity.
  - vm_compute. reflexivity.
  - reflexivity.
Defined.

Lemma ruleUrl_ignores_tail_witness :
  Spec.count "/" "@typescript-eslint" = O
  /\ Spec.count "/" "tslint" = O
  /\ ruleUrl "@typescript-eslint/tslint/config"
     = ruleUrl "@typescript-eslint/tslint".
Proof.
  split; [reflexivity|split; [reflexivity|]].
  apply (@ruleUrl_ignores_tail "@typescript-eslint" "tslint" "config");
    reflexivity.
Defined.

Lemma earlier_formatter_contract_witness :
  Json.parse
    (Example.printed Example.eslint Example.changed
       (Earlier.lintCommand "A" "B" "pkg"))
  = inr Example.results
  /\ map (fun a => (fst a, Properties.title (snd a)))
       (warnings
          (trace (Earlier.handler Json.parse Path.relative Example.reviewed
                    (Example.printed Example.eslint Example.changed))))
     = [("'x' is defined but never used.",
         "[no-unused-vars](https://eslint.org/docs/rules/no-unused-vars): 'x' is defined but never used.");
        ("Unexpected focused test.",
         "[no-focused-tests](https://github.com/jest-community/eslint-plugin-jest/blob/main/docs/rules/no-focused-tests.md): Unexpected focused test.");
        ("'x' is defined but never used.",
         "[no-unused-vars](https://eslint.org/docs/rules/no-unused-vars): 'x' is defined but never used.")].
Proof.
  split; [vm_compute; reflexivity|].
  rewrite (@earlier_formatter_contract Json.parse Path.relative
             Example.reviewed
             (Example.printed Example.eslint Example.changed) "pkg"
             (Example.pull (Some "fix things")) Example.results).
  - vm_compute. reflexivity.
  - reflexivity.
  - reflexivity.
  - reflexivity.
  - vm_compute. reflexivity.
Defined.

Lemma earlier_outcome_witness :
  shouldBeSkipped (body (Example.pull None)) = false
  /\ outcome
       (Earlier.handler Json.parse Path.relative Example.hung
          (Example.printed Example.eslintCrashes Example.changed))
     = inl (JsError "SyntaxError: Unexpected token in JSON")
  /\ outcome
       (Earlier.handler Json.parse Path.relative Example.hung
          (Example.printed Example.eslint Example.changed))
     = inr tt.
Proof.
  split; [reflexivity|split].
  - refine (eq_trans
              (@earlier_outcome Json.parse Path.relative Example.hung
                 (Example.printed Example.eslintCrashes Example.changed)
                 "pkg" (Example.pull None) _ _ _) _);
      reflexivity.
  - refine (eq_trans
              (@earlier_outcome Json.parse Path.relative Example.hung
                 (Example.printed Example.eslint Example.changed)
                 "pkg" (Example.pull None) _ _ _) _);
      reflexivity.
Defined.

Lemma middle_formatter_contract_witness :
  Json.parse
    (Example.printed Example.eslint Example.changed
       (Earlier.lintCommand "A" "B" "pkg"))
  = inr Example.results
  /\ map (fun a => (fst a, Properties.title (snd a)))
       (warnings
          (trace (Middle.handler Json.parse Path.relative Example.reviewed
                    (Example.printed Example.eslint Example.changed))))
     = [("See https://eslint.org/docs/rules/no-unused-vars for details.",
         "'x' is defined but never used.");
        ("See https://github.com/jest-community/eslint-plugin-jest/blob/main/docs/rules/no-focused-tests.md for details.",
         "Unexpected focused test.");
        ("See https://eslint.org/docs/rules/no-unused-vars for details.",
         "'x' is defined but never used.")].
Proof.
  split; [vm_compute; reflexivity|].
  rewrite (@middle_formatter_contract Json.parse Path.relative
             Example.reviewed
             (Example.printed Example.eslint Example.changed) "pkg"
             (Example.pull (Some "fix things")) Example.results).
  - vm_compute. reflexivity.
  - reflexivity.
  - reflexivity.
  - reflexivity.
  - vm_compute. reflexivity.
Defined.

Lemma positive_summary_means_clean_witness :
  In "## Your code looks awesome! :rocket:"
    (summaries (trace (Example.run (Example.nothingToLint Example.eslint))))
  /\ warnings (trace (Example.run (Example.nothingToLint Example.eslint)))
     = [].
Proof.
  split; [left; reflexivity|].
  apply (@positive_summary_means_clean Json.parse (Json.stringify 2)
           Path.relative (Example.nothingToLint Example.eslint)).
  left. reflexivity.
Defined.

Lemma linter_arguments_exact_witness :
  Shell.plain "pkg" = true
  /\ Forall (fun line => Shell.unquoted line = true) Example.changed
  /\ Shell.arguments "pkg" Example.changed
     = Some ["a.ts"; "b.ts"; "c.test.tsx"].
Proof.
  split; [reflexivity|split; [repeat constructor|]].
  refine (eq_trans
            (proj1 (@linter_arguments_exact "pkg" Example.changed _ _)) _).
  - reflexivity.
  - repeat constructor.
  - reflexivity.
Defined.
